(** * UrbanMart: filtering and aggregation engine

    A shallow embedding of the analytical core of the UrbanMart
    dashboards and command-line scripts:

    - [Mini_Project/app.py]               ([MiniApp]):  [load_data],
      [apply_filters], the grouped roll-ups of the dashboard pages;
    - [Mini_Project/urbanmart_analysis.py] ([MiniAnalysis]): the KPI
      functions of the command-line menu;
    - [urbanmart_final_project/app.py]     ([FinalApp]): [load_data],
      [filter_data] (the copy in [urbanmart_streamlit_project/app.py]
      has the same body);
    - [urbanmart_final_project/urbanmart_analysis.py] ([FinalAnalysis]):
      [add_line_revenue_column] and the KPI functions built on it;
    - the helpers and page bodies of [Mini_Project/app.py]
      ([MiniDashboard]), the key metrics of the two sales dashboards
      ([SalesDashboard]), and the counts, mappings, filters and menus of
      the two console scripts ([MiniScript], [FinalScript]).

    Conventions of the embedding.
    - A pandas [DataFrame] read from the CSV file is a list of typed rows,
      in file order; every cell is present.
    - A calendar day is its proleptic Gregorian ordinal (Python's
      [date.toordinal()]), so that comparing two days is comparing two
      integers and the weekday is [(ordinal + 6) mod 7], Monday being 0.
    - Finite numeric cells are exact rationals; rounding error of binary
      floating point is not modelled.  The results of a division are
      values of [float64], which adds the IEEE special values a pandas
      division produces when the divisor is zero. *)

From Stdlib Require Import ZArith QArith Qround Qabs List Ascii String Bool Permutation Lia Lqa.
From stdpp Require Import gmap strings list sorting.

#[local] Set Warnings "-clear-no-such-hyp".

Open Scope string_scope.
Open Scope Z_scope.

(** ** Rows of [urbanmart_sales.csv] *)

Record Row := mkRow {
  transaction_id   : string;
  bill_id          : string;
  date             : Z;
  store_id         : string;
  store_location   : string;
  customer_id      : string;
  customer_segment : string;
  product_id       : string;
  product_category : string;
  product_name     : string;
  quantity         : Z;
  unit_price       : Q;
  payment_method   : string;
  discount_applied : Q;
  channel          : string
}.

(** ** Numbers *)

(** A float64 cell: a finite value, or one of the special values. *)
Inductive float64 : Type :=
| Finite (q : Q)
| PosInf
| NegInf
| NaN.

Definition Qis_zero (q : Q) : bool := Qeq_bool q 0.
Definition Qis_neg (q : Q) : bool := negb (Qle_bool 0 q).

(** Sign of a float64 for the rules of the special values; a zero counts
    as positive (the zeros met here come from [x - x] and [0 * x] with
    non-negative operands, which are [+0.0]). *)
Definition fneg (x : float64) : bool :=
  match x with
  | Finite q => Qis_neg q
  | NegInf => true
  | PosInf | NaN => false
  end.

Definition signed_inf (negative : bool) : float64 :=
  if negative then NegInf else PosInf.

(** [x / y] on float64 columns: pandas divides without raising;
    [0/0] is NaN and [x/0] is an infinity with the sign of [x]. *)
Definition fdiv (x y : float64) : float64 :=
  match x, y with
  | NaN, _ | _, NaN => NaN
  | Finite a, Finite b =>
      if Qis_zero b
      then (if Qis_zero a then NaN else signed_inf (Qis_neg a))
      else Finite (a / b)
  | Finite _, (PosInf | NegInf) => Finite 0
  | (PosInf | NegInf), (PosInf | NegInf) => NaN
  | (PosInf | NegInf), Finite _ => signed_inf (xorb (fneg x) (fneg y))
  end.

Definition fmul (x y : float64) : float64 :=
  match x, y with
  | NaN, _ | _, NaN => NaN
  | Finite a, Finite b => Finite (a * b)
  | Finite a, (PosInf | NegInf) | (PosInf | NegInf), Finite a =>
      if Qis_zero a then NaN else signed_inf (xorb (fneg x) (fneg y))
  | (PosInf | NegInf), (PosInf | NegInf) => signed_inf (xorb (fneg x) (fneg y))
  end.

(** Rounding to the nearest integer, ties to even ([rint]). *)
Definition Qrint (q : Q) : Z :=
  let f := Qfloor q in
  let r := (q - inject_Z f)%Q in
  match (r ?= 1 # 2)%Q with
  | Lt => f
  | Gt => f + 1
  | Eq => if Z.even f then f else f + 1
  end.

(** [round(x, 2)] and [Series.round(2)] on a finite value. *)
Definition round2 (q : Q) : Q := (inject_Z (Qrint (q * 100)) / 100)%Q.

Definition fround2 (x : float64) : float64 :=
  match x with
  | Finite q => Finite (round2 q)
  | _ => x
  end.

(** ** Calendar *)

Definition day_order : list string :=
  ["Monday"; "Tuesday"; "Wednesday"; "Thursday"; "Friday"; "Saturday"; "Sunday"].

(** [Series.dt.day_name()] *)
Definition day_name (d : Z) : string :=
  nth (Z.to_nat ((d + 6) mod 7)) day_order "".

(** ** Outcome of a call *)

(** The failures the specification names. *)
Inductive EngineError : Type :=
| SourceNotFoundError
| DataFormatError
| InvalidRangeError.

(** A Python call either returns a value or raises. *)
Inductive outcome (A : Type) : Type :=
| Returns (a : A)
| Raises (e : EngineError).
Arguments Returns {A} a.
Arguments Raises {A} e.

(** ** Restriction sets *)

(** [Series.isin(values)] on one cell. *)
Definition isin (v : string) (values : list string) : Prop := v ∈ values.

(** The reading of a restriction set in the specification: an empty set
    restricts nothing, a non-empty one asks for membership. *)
Definition allowed (restriction : list string) (v : string) : Prop :=
  restriction ≠ [] → v ∈ restriction.

(** The restriction set a channel choice stands for: the sentinel
    ["All"] is the empty set, any other choice the singleton. *)
Definition channel_set (channel_choice : string) : list string :=
  if (channel_choice =? "All")%string then [] else [channel_choice].

Section FilterSteps.
Context {A : Type}.

(** [if values: df = df[df[col].isin(values)]]; an empty list is falsy. *)
Definition isin_filter (col : A → string) (values : list string)
    (df : list A) : list A :=
  match values with
  | [] => df
  | _ => filter (λ r, isin (col r) values) df
  end.

(** [if channel != "All": df = df[df['channel'] == channel]] *)
Definition channel_filter (col : A → string) (channel_choice : string)
    (df : list A) : list A :=
  if negb (channel_choice =? "All")%string
  then filter (λ r, col r = channel_choice) df
  else df.

(** [df[(df['date'] >= start) & (df['date'] <= end)]] *)
Definition date_filter (col : A → Z) (start_date end_date : Z)
    (df : list A) : list A :=
  filter (λ r, start_date ≤ col r ∧ col r ≤ end_date) df.
End FilterSteps.

(** The time granularities offered by the sidebar. *)
Definition granularities : list string :=
  ["Daily"; "Weekly"; "Monthly"; "Quarterly"; "Yearly"].

(** ** Grouping *)

(** A group label: the value of the grouping column, a string for the
    categorical columns and a day for the [date] column. *)
Inductive Label : Type :=
| LStr (s : string)
| LDay (d : Z).

(** Order of the labels of one column, as [groupby] sorts them. *)
Definition label_compare (a b : Label) : comparison :=
  match a, b with
  | LStr s, LStr t => String.compare s t
  | LDay d, LDay e => Z.compare d e
  | LStr _, LDay _ => Lt
  | LDay _, LStr _ => Gt
  end.

Section Groupby.
Context {R : Type}.

(** Put row [r] into the group labelled [k]; the groups are kept in
    label order and the rows of a group in table order. *)
Fixpoint group_insert (k : Label) (r : R) (groups : list (Label * list R))
  : list (Label * list R) :=
  match groups with
  | [] => [(k, [r])]
  | (k', g) :: rest =>
      match label_compare k k' with
      | Lt => (k, [r]) :: groups
      | Eq => (k', (g ++ [r])%list) :: rest
      | Gt => (k', g) :: group_insert k r rest
      end
  end.

(** [df.groupby(by)]: the groups of [df], sorted by label. *)
Definition groupby (by_ : R → Label) (df : list R) : list (Label * list R) :=
  fold_left (λ groups r, group_insert (by_ r) r groups) df [].

(** [Series.sum()] of column [col]. *)
Fixpoint col_sum (col : R → Q) (df : list R) : Q :=
  match df with
  | [] => 0
  | r :: rest => col r + col_sum col rest
  end%Q.

(** [df.groupby(by)[col].sum()] *)
Definition groupby_sum (by_ : R → Label) (col : R → Q) (df : list R)
  : list (Label * Q) :=
  map (λ kg, (kg.1, col_sum col kg.2)) (groupby by_ df).
End Groupby.

(** [Series.nunique()] of a string column. *)
Fixpoint distinct (l : list string) : list string :=
  match l with
  | [] => []
  | x :: rest => if decide (x ∈ rest) then distinct rest else x :: distinct rest
  end.

Definition nunique {R : Type} (col : R → string) (df : list R) : nat :=
  length (distinct (map col df)).

#[global] Instance Label_eq_dec : EqDecision Label.
Proof. solve_decision. Defined.

(** The row of label [k] in a grouped result, if the label occurs. *)
Fixpoint label_lookup {V : Type} (k : Label) (groups : list (Label * V)) : option V :=
  match groups with
  | [] => None
  | (k', v) :: rest => if decide (k = k') then Some v else label_lookup k rest
  end.

(** [.reindex(index)]: one row per label of [index], in the order of
    [index]; a label the grouped result lacks gets an empty row, which
    pandas fills with NaN. *)
Definition reindex {V : Type} (index : list Label) (groups : list (Label * V))
  : list (Label * option V) :=
  map (λ k, (k, label_lookup k groups)) index.

(** [.head(n)]: the first [n] rows, and for a negative [n] all rows
    but the last [-n]. *)
Definition head {T : Type} (n : Z) (l : list T) : list T :=
  if 0 <=? n then take (Z.to_nat n) l
  else take (length l - Z.to_nat (- n)) l.

(** [sort_values(by, ascending)] is pandas code.  The source calls it
    with the default [kind='quicksort']; the functions below take the
    sorting routine as an argument [sort_values T key ascending rows],
    [key] reading the cell of the [by] column. *)
Definition SortValues : Type := ∀ T : Type, (T → Q) → bool → list T → list T.

(** [a] may stand before [b] in a column sorted in the given direction. *)
Definition in_order (ascending : bool) (a b : Q) : Prop :=
  if ascending then (a <= b)%Q else (b <= a)%Q.

(** What pandas documents of [sort_values] for every [kind]: the rows
    are rearranged, and the [by] column comes out ordered. *)
Record sort_values_contract (sort_values : SortValues) : Prop := {
  sort_values_perm :
    ∀ T key ascending (l : list T), sort_values T key ascending l ≡ₚ l;
  sort_values_sorted :
    ∀ T key ascending (l : list T),
      StronglySorted (λ x y, in_order ascending (key x) (key y))
                     (sort_values T key ascending l)
}.

(** ** [Mini_Project/app.py] *)

Module MiniApp.

(** A row of the loaded table: the CSV row and the columns [load_data]
    adds.  Of the calendar columns only [day_of_week] is kept; [week],
    [month], [month_name], [quarter], [year], [year_month] and
    [year_quarter] take part in no property below. *)
Record SalesRow := mkSalesRow {
  base :> Row;
  line_revenue  : Q;
  gross_revenue : Q;
  total_discount : Q;
  cost          : Q;
  profit        : Q;
  profit_margin : float64;
  day_of_week   : string
}.

Definition derive (r : Row) : SalesRow :=
  let line_revenue := (inject_Z (quantity r) * unit_price r - discount_applied r)%Q in
  let gross_revenue := (inject_Z (quantity r) * unit_price r)%Q in
  let total_discount := discount_applied r in
  let cost := (inject_Z (quantity r) * unit_price r * (30 # 100))%Q in
  let profit := (line_revenue - cost)%Q in
  let profit_margin :=
    fround2 (fmul (fdiv (Finite profit) (Finite line_revenue)) (Finite 100)) in
  mkSalesRow r line_revenue gross_revenue total_discount cost profit
             profit_margin (day_name (date r)).

(** [load_data()], from the rows [pd.read_csv] has read. *)
Definition load_data (csv : list Row) : list SalesRow := map derive csv.

(** The [if]/[elif] chain on [date_segment]: five branches with the
    same body, and no [else]. *)
Definition segment_filter (date_segment : string) (custom_start custom_end : Z)
    (filtered_df : list SalesRow) : list SalesRow :=
  if (date_segment =? "Daily")%string then
    date_filter (λ r : SalesRow, date r) custom_start custom_end filtered_df
  else if (date_segment =? "Weekly")%string then
    date_filter (λ r : SalesRow, date r) custom_start custom_end filtered_df
  else if (date_segment =? "Monthly")%string then
    date_filter (λ r : SalesRow, date r) custom_start custom_end filtered_df
  else if (date_segment =? "Quarterly")%string then
    date_filter (λ r : SalesRow, date r) custom_start custom_end filtered_df
  else if (date_segment =? "Yearly")%string then
    date_filter (λ r : SalesRow, date r) custom_start custom_end filtered_df
  else filtered_df.

Definition apply_filters (df : list SalesRow) (date_segment : string)
    (custom_start custom_end : Z) (stores : list string) (channel_ : string)
    (categories segments payment_methods : list string) : list SalesRow :=
  let filtered_df := df in
  let filtered_df :=
    segment_filter date_segment custom_start custom_end filtered_df in
  let filtered_df :=
    isin_filter (λ r : SalesRow, store_location r) stores filtered_df in
  let filtered_df :=
    channel_filter (λ r : SalesRow, channel r) channel_ filtered_df in
  let filtered_df :=
    isin_filter (λ r : SalesRow, product_category r) categories filtered_df in
  let filtered_df :=
    isin_filter (λ r : SalesRow, customer_segment r) segments filtered_df in
  let filtered_df :=
    isin_filter (λ r : SalesRow, payment_method r) payment_methods filtered_df in
  filtered_df.

(** The function has no [raise] and validates nothing: a call returns
    the filtered frame. *)
Definition apply_filters_call (df : list SalesRow) (date_segment : string)
    (custom_start custom_end : Z) (stores : list string) (channel_ : string)
    (categories segments payment_methods : list string)
  : outcome (list SalesRow) :=
  Returns (apply_filters df date_segment custom_start custom_end stores
                         channel_ categories segments payment_methods).

(** *** Roll-ups of the dashboard pages *)

(** One row of [day_sales].  A day without rows gets NaN in both value
    columns, which makes them float64; the count of a day with rows is
    carried as a float64 as well. *)
Record DaySales := mkDaySales {
  Day : string;
  Revenue : float64;
  Transactions : float64
}.

(** [df_filtered.groupby('day_of_week').agg({'line_revenue': 'sum',
    'transaction_id': 'nunique'})] *)
Definition day_groups (df_filtered : list SalesRow) : list (Label * (Q * nat)) :=
  map (λ kg, (kg.1, (col_sum line_revenue kg.2,
                     nunique (λ r : SalesRow, transaction_id r) kg.2)))
      (groupby (λ r : SalesRow, LStr (day_of_week r)) df_filtered).

(** [….reindex(day_order).reset_index()] with the columns renamed to
    [Day], [Revenue], [Transactions]; the labels of this index are day
    names. *)
Definition day_sales (df_filtered : list SalesRow) : list DaySales :=
  map (λ kv : Label * option (Q * nat),
         let day := match kv.1 with LStr s => s | LDay _ => "" end in
         match kv.2 with
         | Some (revenue, transactions) =>
             mkDaySales day (Finite revenue)
                        (Finite (inject_Z (Z.of_nat transactions)))
         | None => mkDaySales day NaN NaN
         end)
      (reindex (map LStr day_order) (day_groups df_filtered)).

(** One row of [top_products]: the sums of [line_revenue], [quantity]
    and [profit] of a product. *)
Record Totals := mkTotals {
  label : Label;
  sum_line_revenue : Q;
  sum_quantity : Z;
  sum_profit : Q
}.

Definition totals (by_ : SalesRow → Label) (df_filtered : list SalesRow)
  : list Totals :=
  map (λ kg, mkTotals kg.1 (col_sum line_revenue kg.2)
                      (foldr (λ r acc, quantity (base r) + acc) 0 kg.2)
                      (col_sum profit kg.2))
      (groupby by_ df_filtered).



(** [df_filtered.groupby('product_name').agg({…})
    .sort_values('line_revenue', ascending=False).head(10)] *)
Definition top_products (sort_values : SortValues)
    (df_filtered : list SalesRow) : list Totals :=
  head 10 (sort_values _ sum_line_revenue false
             (totals (λ r : SalesRow, LStr (product_name r)) df_filtered)).

(** The grouping columns of the dashboard pages. *)
Inductive Dimension : Type :=
| by_store | by_category | by_channel | by_segment | by_payment_method
| by_date | by_day_of_week | by_customer | by_product.

Definition grouping_column (d : Dimension) (r : SalesRow) : Label :=
  match d with
  | by_store => LStr (store_location r)
  | by_category => LStr (product_category r)
  | by_channel => LStr (channel r)
  | by_segment => LStr (customer_segment r)
  | by_payment_method => LStr (payment_method r)
  | by_date => LDay (date r)
  | by_day_of_week => LStr (day_of_week r)
  | by_customer => LStr (customer_id r)
  | by_product => LStr (product_name r)
  end.

End MiniApp.

(** ** [urbanmart_final_project/app.py] *)

Module FinalApp.

(** A row of the loaded table: the CSV row, [line_revenue] and
    [day_of_week]. *)
Record SalesRow := mkSalesRow {
  base :> Row;
  line_revenue : Q;
  day_of_week  : string
}.

Definition load_data (csv : list Row) : list SalesRow :=
  map (λ r, mkSalesRow r
              (inject_Z (quantity r) * unit_price r - discount_applied r)%Q
              (day_name (date r))) csv.

Definition filter_data (df : list SalesRow) (date_range : Z * Z)
    (selected_locations : list string) (selected_channel : string)
    (selected_categories : option (list string)) : list SalesRow :=
  let filtered := df in
  let '(start_date, end_date) := date_range in
  let filtered :=
    date_filter (λ r : SalesRow, date r) start_date end_date filtered in
  let filtered :=
    isin_filter (λ r : SalesRow, store_location r) selected_locations filtered in
  let filtered :=
    channel_filter (λ r : SalesRow, channel r) selected_channel filtered in
  let filtered :=
    match selected_categories with
    | None => filtered
    | Some categories =>
        isin_filter (λ r : SalesRow, product_category r) categories filtered
    end in
  filtered.

(** No [raise] and no validation here either. *)
Definition filter_data_call (df : list SalesRow) (date_range : Z * Z)
    (selected_locations : list string) (selected_channel : string)
    (selected_categories : option (list string)) : outcome (list SalesRow) :=
  Returns (filter_data df date_range selected_locations selected_channel
                       selected_categories).

(** *** Roll-ups of [main] *)


Definition rev_by_store (sort_values : SortValues) (df_filtered : list SalesRow)
  : list (Label * Q) :=
  sort_values _ snd false
    (groupby_sum (λ r : SalesRow, LStr (store_location r)) line_revenue df_filtered).

(** [df_filtered.groupby("date")["line_revenue"].sum().sort_index()] *)
Definition daily_rev (df_filtered : list SalesRow) : list (Label * Q) :=
  groupby_sum (λ r : SalesRow, LDay (date r)) line_revenue df_filtered.

(** [df_filtered.groupby("product_name")["line_revenue"].sum()
    .reset_index().sort_values("line_revenue", ascending=False).head(5)] *)
Definition top_products (sort_values : SortValues) (df_filtered : list SalesRow)
  : list (Label * Q) :=
  head 5 (sort_values _ snd false
            (groupby_sum (λ r : SalesRow, LStr (product_name r)) line_revenue df_filtered)).

Definition top_customers (sort_values : SortValues) (df_filtered : list SalesRow)
  : list (Label * Q) :=
  head 5 (sort_values _ snd false
            (groupby_sum (λ r : SalesRow, LStr (customer_id r)) line_revenue df_filtered)).

End FinalApp.

(** ** Frames shared by reference: the command-line scripts *)

(** The KPI functions of the two [urbanmart_analysis.py] scripts receive
    the frame [pd.read_csv] returned and assign columns to frames.  A
    frame is an object on a heap: the CSV rows, and the columns added
    to it by name. *)
Record DataFrame := mkDataFrame {
  rows  : list Row;
  added : gmap string (list Q)
}.

(** A computation on the heap of frames; [None] is a [KeyError] or a
    reference to no frame. *)
Definition Py (A : Type) : Type :=
  gmap nat DataFrame → option (A * gmap nat DataFrame).

#[global] Instance Py_ret : MRet Py := λ A a h, Some (a, h).
#[global] Instance Py_bind : MBind Py := λ A B k m h,
  match m h with
  | Some (a, h') => k a h'
  | None => None
  end.

Definition read (df : nat) : Py DataFrame :=
  λ h, frame ← h !! df; Some (frame, h).

(** [df.copy()]: a new frame with the same content. *)
Definition copy (df : nat) : Py nat :=
  λ h, frame ← h !! df;
       let fresh_ref := fresh (dom h) in
       Some (fresh_ref, <[fresh_ref := frame]> h).

(** [df[name] = values]: the column is set in the frame [df] refers to. *)
Definition setitem (df : nat) (name : string) (values : list Q) : Py unit :=
  λ h, frame ← h !! df;
       Some ((), <[df := mkDataFrame (rows frame) (<[name := values]> (added frame))]> h).

(** [df[name]] for an added column. *)
Definition getitem (df : nat) (name : string) : Py (list Q) :=
  λ h, frame ← h !! df; values ← added frame !! name; Some (values, h).

(** [name in df.columns] for a name outside the CSV header. *)
Definition has_column (df : nat) (name : string) : Py bool :=
  λ h, frame ← h !! df; Some (bool_decide (is_Some (added frame !! name)), h).

(** [df['quantity'] * df['unit_price'] - df['discount_applied']] *)
Definition line_revenue_values (csv : list Row) : list Q :=
  map (λ r, inject_Z (quantity r) * unit_price r - discount_applied r)%Q csv.

(** ** [Mini_Project/urbanmart_analysis.py] *)

Module MiniAnalysis.

Definition compute_total_revenue (df : nat) : Py Q :=
  frame ← read df;
  setitem df "line_revenue" (line_revenue_values (rows frame));;
  line_revenue ← getitem df "line_revenue";
  let total_revenue := col_sum id line_revenue in
  mret (round2 total_revenue).

Definition compute_revenue_by_store (df : nat) : Py (list (Label * Q)) :=
  frame ← read df;
  setitem df "line_revenue" (line_revenue_values (rows frame));;
  line_revenue ← getitem df "line_revenue";
  let revenue_by_store :=
    groupby_sum (λ rv : Row * Q, LStr (store_location rv.1)) snd
                (zip (rows frame) line_revenue) in
  let revenue_by_store :=
    map (λ kv : Label * Q, (kv.1, round2 kv.2)) revenue_by_store in
  mret revenue_by_store.

Definition compute_top_n_products (sort_values : SortValues) (df : nat) (n : Z)
  : Py (list (Label * Q)) :=
  frame ← read df;
  setitem df "line_revenue" (line_revenue_values (rows frame));;
  line_revenue ← getitem df "line_revenue";
  let top_products :=
    head n (sort_values _ snd false
              (groupby_sum (λ rv : Row * Q, LStr (product_name rv.1)) snd
                           (zip (rows frame) line_revenue))) in
  mret top_products.

End MiniAnalysis.

(** ** [urbanmart_final_project/urbanmart_analysis.py] *)

Module FinalAnalysis.

Definition add_line_revenue_column (df : nat) : Py nat :=
  df ← copy df;
  frame ← read df;
  setitem df "line_revenue" (line_revenue_values (rows frame));;
  mret df.

(** [if "line_revenue" not in df.columns: df = add_line_revenue_column(df)] *)
Definition ensure_line_revenue (df : nat) : Py nat :=
  present ← has_column df "line_revenue";
  if negb present then add_line_revenue_column df else mret df.

Definition compute_total_revenue (df : nat) : Py Q :=
  df ← ensure_line_revenue df;
  line_revenue ← getitem df "line_revenue";
  let total := col_sum id line_revenue in
  mret total.

Definition compute_revenue_by_store (df : nat) : Py (list (Label * Q)) :=
  df ← ensure_line_revenue df;
  frame ← read df;
  line_revenue ← getitem df "line_revenue";
  let revenue_series :=
    groupby_sum (λ rv : Row * Q, LStr (store_id rv.1)) snd
                (zip (rows frame) line_revenue) in
  mret revenue_series.

Definition compute_top_n_products (sort_values : SortValues) (df : nat) (n : Z)
  : Py (list (Label * Q)) :=
  df ← ensure_line_revenue df;
  frame ← read df;
  line_revenue ← getitem df "line_revenue";
  let grouped :=
    head n (sort_values _ snd false
              (groupby_sum (λ rv : Row * Q, LStr (product_name rv.1)) snd
                           (zip (rows frame) line_revenue))) in
  mret grouped.

End FinalAnalysis.

(** ** The filter the specification describes *)

(** A row passes iff its date lies in the inclusive range and its value
    in every restricted dimension belongs to the restriction set. *)
Definition passes (date_from date_to : Z)
    (stores channels categories segments payment_methods : list string)
    (r : Row) : Prop :=
  (date_from ≤ date r ∧ date r ≤ date_to)
  ∧ allowed stores (store_location r)
  ∧ allowed channels (channel r)
  ∧ allowed categories (product_category r)
  ∧ allowed segments (customer_segment r)
  ∧ allowed payment_methods (payment_method r).

#[global] Instance allowed_dec restriction v : Decision (allowed restriction v).
Proof. unfold allowed. apply _. Defined.

#[global] Instance passes_dec date_from date_to stores channels categories segments
    payment_methods r :
  Decision (passes date_from date_to stores channels categories segments
                   payment_methods r).
Proof. unfold passes. apply _. Defined.

(** A categories argument that may be absent, as a restriction set. *)
Definition categories_set (selected : option (list string)) : list string :=
  match selected with
  | None => []
  | Some categories => categories
  end.

(** ** Sample rows *)

Definition sample_row (tid : string) (day : Z) (store : string) (product : string)
    (qty : Z) (price discount : Q) (chan : string) : Row :=
  mkRow tid tid day store store "C001" "Regular" "P001" "Grocery" product
        qty price "Cash" discount chan.

(** The three rows of the specification's worked example; 738886 is
    2024-01-01, a Monday. *)
Definition example_csv : list Row :=
  [ sample_row "T1" 738886 "A" "Rice" 2 10 0 "Online";
    sample_row "T2" 738887 "A" "Milk" 1 5 1 "In-store";
    sample_row "T3" 738888 "B" "Soap" 3 2 0 "Online" ].

(** A row that sells one unit at price zero without discount. *)
Definition zero_revenue_row : Row :=
  sample_row "T0" 738886 "A" "Sample" 1 0 0 "Online".

(** ** Conditions and shapes used to state the properties *)

Import MiniApp FinalApp.

(** The date condition [apply_filters] applies for a given
    [date_segment]: the range test for the five granularities, nothing
    for any other string. *)
Definition segment_mask (date_segment : string) (custom_start custom_end : Z)
    (r : Row) : Prop :=
  date_segment ∈ granularities → custom_start ≤ date r ∧ date r ≤ custom_end.

(** The whole condition of [apply_filters], for any [date_segment]. *)
Definition apply_filters_mask (date_segment : string) (custom_start custom_end : Z)
    (stores : list string) (channel_ : string)
    (categories segments payment_methods : list string) (r : Row) : Prop :=
  segment_mask date_segment custom_start custom_end r
  ∧ allowed stores (store_location r)
  ∧ allowed (channel_set channel_) (channel r)
  ∧ allowed categories (product_category r)
  ∧ allowed segments (customer_segment r)
  ∧ allowed payment_methods (payment_method r).

#[global] Instance apply_filters_mask_dec seg s e stores ch cats segs pms r :
  Decision (apply_filters_mask seg s e stores ch cats segs pms r).
Proof. unfold apply_filters_mask, segment_mask. apply _. Defined.


(** [a] stands before [b]. *)
Definition label_lt (a b : Label) : Prop := label_compare a b = Lt.

(** The labels are strictly increasing. *)
Definition labels_sorted {R : Type} (groups : list (Label * list R)) : Prop :=
  StronglySorted label_lt (map fst groups).

(** Rows of the group of [k], an absent group holding none. *)
Definition group_rows {R : Type} (k : Label) (groups : list (Label * list R)) : list R :=
  default [] (label_lookup k groups).

(** The row [day_sales] lists for one day name. *)
Definition day_sales_row (view : list MiniApp.SalesRow) (day : string)
  : MiniApp.DaySales :=
  match filter (λ r : MiniApp.SalesRow, MiniApp.day_of_week r = day) view with
  | [] => MiniApp.mkDaySales day NaN NaN
  | g => MiniApp.mkDaySales day
           (Finite (col_sum MiniApp.line_revenue g))
           (Finite (inject_Z
                      (Z.of_nat (nunique (λ r : MiniApp.SalesRow, transaction_id r) g))))
  end.

(** A call keeps the frames: every frame of the heap is after the call
    what it was before. *)
Definition keeps_frames {A : Type} (call : Py A) : Prop :=
  ∀ h result h',
    call h = Some (result, h') →
    ∀ l frame, h !! l = Some frame → h' !! l = Some frame.

(** ** Sorting routines *)

#[global] Instance in_order_dec ascending a b : Decision (in_order ascending a b).
Proof.
  unfold in_order. destruct ascending.
  - destruct (Qlt_le_dec b a) as [Hlt|Hle]; [right|left; exact Hle].
    by apply Qlt_not_le.
  - destruct (Qlt_le_dec a b) as [Hlt|Hle]; [right|left; exact Hle].
    by apply Qlt_not_le.
Defined.

(** Two routines to sort with: a merge sort, and the same merge sort
    run on the rows in reverse. *)
Definition sort_values_stable : SortValues :=
  λ T key ascending l,
    merge_sort (λ x y, in_order ascending (key x) (key y)) l.

Definition sort_values_reversing : SortValues :=
  λ T key ascending l,
    merge_sort (λ x y, in_order ascending (key x) (key y)) (reverse l).

(** ** More sample tables *)

(** A week of sales, one row a day from Monday 2024-01-01 on. *)
Definition week_csv : list Row :=
  map (λ i, sample_row "T" (738886 + i) "A" "Rice" 1 1 0 "Online")
      [0; 1; 2; 3; 4; 5; 6].

(** Two products with the same revenue. *)
Definition tie_csv : list Row :=
  [ sample_row "T1" 738886 "A" "Apples" 1 5 0 "Online";
    sample_row "T2" 738886 "A" "Bread" 1 5 0 "Online" ].

(** The heap of a session of the command-line menu: the frame read
    from the CSV file, which has no added column. *)
Definition cli_heap : gmap nat DataFrame :=
  {[ 0%nat := mkDataFrame example_csv ∅ ]}.

(** * The rest of the dashboards and scripts *)



(** [Series.idxmax()] and [Series.idxmin()] on a float64 column under
    the default [RangeIndex]: NaN cells are skipped; [None] stands for
    the failure on a column without any number. *)
Definition float_le (a b : float64) : bool :=
  match a, b with
  | NaN, _ | _, NaN => false
  | NegInf, _ | _, PosInf => true
  | Finite x, Finite y => Qle_bool x y
  | _, _ => false
  end.

Fixpoint float_idxmax (values : list float64) : option nat :=
  match values with
  | [] => None
  | x :: rest =>
      match x, float_idxmax rest with
      | NaN, found => S <$> found
      | _, None => Some 0%nat
      | _, Some i => if float_le (nth i rest NaN) x then Some 0%nat else Some (S i)
      end
  end.

Fixpoint float_idxmin (values : list float64) : option nat :=
  match values with
  | [] => None
  | x :: rest =>
      match x, float_idxmin rest with
      | NaN, found => S <$> found
      | _, None => Some 0%nat
      | _, Some i => if float_le x (nth i rest NaN) then Some 0%nat else Some (S i)
      end
  end.




(** ** [Mini_Project/app.py]: helpers and page bodies *)

Module MiniDashboard.

Definition calculate_growth (current previous : Q) : Q :=
  if Qeq_bool previous 0 then 0%Q
  else ((current - previous) / previous * 100)%Q.

Definition get_trend_indicator (value : Q) : string :=
  if Qlt_le_dec 0 value then "📈"
  else if Qlt_le_dec value 0 then "📉"
  else "➡️".

(** The dictionary [colors] of [create_insight_box]. *)
Definition colors : gmap string string :=
  {[ "info" := "#1f77b4"; "success" := "#28a745";
     "warning" := "#ffc107"; "danger" := "#dc3545" ]}.

(** [create_insight_box]: the markup handed to [st.markdown]. *)
Definition create_insight_box (title content insight_type : string) : string :=
  let color := default "#1f77b4" (colors !! insight_type) in
  "
        <div style='background-color: #f8f9fa; border-left: 4px solid " ++ color ++ "; 
                    padding: 1rem; margin: 1rem 0; border-radius: 5px;'>
            <h4 style='margin: 0 0 0.5rem 0; color: " ++ color ++ ";'>" ++ title ++ "</h4>
            <p style='margin: 0;'>" ++ content ++ "</p>
        </div>
    ".

(** *** Executive Overview: key performance indicators *)

Definition total_revenue (df_filtered : list MiniApp.SalesRow) : Q :=
  col_sum MiniApp.line_revenue df_filtered.

Definition total_profit (df_filtered : list MiniApp.SalesRow) : Q :=
  col_sum MiniApp.profit df_filtered.

Definition total_transactions (df_filtered : list MiniApp.SalesRow) : nat :=
  nunique (λ r : MiniApp.SalesRow, transaction_id r) df_filtered.

Definition unique_customers (df_filtered : list MiniApp.SalesRow) : nat :=
  nunique (λ r : MiniApp.SalesRow, customer_id r) df_filtered.


(** [(total_profit / total_revenue * 100) if total_revenue > 0 else 0];
    the Profitability page computes [overall_margin] the same way. *)
Definition profit_margin (df_filtered : list MiniApp.SalesRow) : Q :=
  if Qlt_le_dec 0 (total_revenue df_filtered)
  then (total_profit df_filtered / total_revenue df_filtered * 100)%Q
  else 0%Q.

(** *** Sales Performance: sales metrics *)

Definition gross_revenue (df_filtered : list MiniApp.SalesRow) : Q :=
  col_sum MiniApp.gross_revenue df_filtered.




(** *** Profitability Analysis: overview *)


(** *** Customer Insights: customer metrics *)

(** [total_transactions / total_customers if total_customers > 0 else 0] *)
Definition avg_transactions_per_customer (df_filtered : list MiniApp.SalesRow) : Q :=
  if (0 <? unique_customers df_filtered)%nat
  then (inject_Z (Z.of_nat (total_transactions df_filtered))
        / inject_Z (Z.of_nat (unique_customers df_filtered)))%Q
  else 0%Q.


(** [df_filtered.groupby('customer_id').size()] *)
Definition repeat_customers (df_filtered : list MiniApp.SalesRow)
  : list (Label * nat) :=
  map (λ kg, (kg.1, length kg.2))
      (groupby (λ r : MiniApp.SalesRow, LStr (customer_id r)) df_filtered).

(** [(repeat_customers > 1).sum() / total_customers * 100
     if total_customers > 0 else 0] *)
Definition repeat_rate (df_filtered : list MiniApp.SalesRow) : Q :=
  if (0 <? unique_customers df_filtered)%nat
  then (inject_Z (Z.of_nat
                    (length (filter (λ kn : Label * nat, (1 < kn.2)%nat)
                                    (repeat_customers df_filtered))))
        / inject_Z (Z.of_nat (unique_customers df_filtered)) * 100)%Q
  else 0%Q.

(** *** Executive Overview: top category *)


(** *** Sales Performance: best and slowest day, bottom products *)

(** [best_day = day_sales.loc[day_sales['Revenue'].idxmax()]] *)
Definition best_day (df_filtered : list MiniApp.SalesRow) : option MiniApp.DaySales :=
  i ← float_idxmax (map MiniApp.Revenue (MiniApp.day_sales df_filtered));
  MiniApp.day_sales df_filtered !! i.

(** [worst_day = day_sales.loc[day_sales['Revenue'].idxmin()]] *)
Definition worst_day (df_filtered : list MiniApp.SalesRow) : option MiniApp.DaySales :=
  i ← float_idxmin (map MiniApp.Revenue (MiniApp.day_sales df_filtered));
  MiniApp.day_sales df_filtered !! i.

(** [df_filtered.groupby('product_name').agg({…})
    .sort_values('line_revenue', ascending=True).head(10)] *)
Definition bottom_products (sort_values : SortValues)
    (df_filtered : list MiniApp.SalesRow) : list MiniApp.Totals :=
  head 10 (sort_values _ MiniApp.sum_line_revenue true
             (MiniApp.totals (λ r : MiniApp.SalesRow, LStr (product_name r))
                             df_filtered)).

(** *** Store Performance: store comparison *)

(** One row of [store_metrics]. *)
Record StoreMetrics := mkStoreMetrics {
  store_location_ : Label;
  store_line_revenue : Q;
  store_profit : Q;
  store_transactions : nat;
  store_customers : nat;
  store_quantity : Z;
  store_profit_margin : float64;
  store_avg_transaction_value : float64;
  store_avg_items_per_transaction : float64
}.

(** [df_filtered.groupby('store_location').agg({'line_revenue': 'sum',
    'profit': 'sum', 'transaction_id': 'nunique', 'customer_id':
    'nunique', 'quantity': 'sum'})] with the three computed columns
    [Profit Margin %], [Avg Transaction Value] and
    [Avg Items per Transaction]. *)
Definition store_metrics (df_filtered : list MiniApp.SalesRow) : list StoreMetrics :=
  map (λ kg : Label * list MiniApp.SalesRow,
         let line_revenue := col_sum MiniApp.line_revenue kg.2 in
         let profit := col_sum MiniApp.profit kg.2 in
         let transactions := nunique (λ r : MiniApp.SalesRow, transaction_id r) kg.2 in
         let customers := nunique (λ r : MiniApp.SalesRow, customer_id r) kg.2 in
         let quantity_ := foldr (λ r acc, quantity (MiniApp.base r) + acc) 0 kg.2 in
         mkStoreMetrics kg.1 line_revenue profit transactions customers quantity_
           (fround2 (fmul (fdiv (Finite profit) (Finite line_revenue)) (Finite 100)))
           (fround2 (fdiv (Finite line_revenue)
                          (Finite (inject_Z (Z.of_nat transactions)))))
           (fround2 (fdiv (Finite (inject_Z quantity_))
                          (Finite (inject_Z (Z.of_nat transactions))))))
      (groupby (λ r : MiniApp.SalesRow, LStr (store_location r)) df_filtered).


(** *** Customer Insights: the twenty customers of highest value *)

(** One row of [top_customers] with the columns renamed, [Rank] and
    [Avg Order Value] added. *)
Record TopCustomer := mkTopCustomer {
  Customer_ID : Label;
  Total_Revenue : Q;
  Total_Profit : Q;
  Transactions_ : nat;
  Segment : string;
  Rank : nat;
  Avg_Order_Value : float64
}.

(** [df_filtered.groupby('customer_id').agg({'line_revenue': 'sum',
    'profit': 'sum', 'transaction_id': 'nunique',
    'customer_segment': 'first'})]; a group has a first row. *)
Definition customer_totals (df_filtered : list MiniApp.SalesRow)
  : list (Label * (Q * Q * nat * string)) :=
  map (λ kg : Label * list MiniApp.SalesRow,
         (kg.1, (col_sum MiniApp.line_revenue kg.2,
                 col_sum MiniApp.profit kg.2,
                 nunique (λ r : MiniApp.SalesRow, transaction_id r) kg.2,
                 match kg.2 with
                 | r :: _ => customer_segment r
                 | [] => ""
                 end)))
      (groupby (λ r : MiniApp.SalesRow, LStr (customer_id r)) df_filtered).

(** [….sort_values('line_revenue', ascending=False).head(20)
    .reset_index()], then [Rank] is [range(1, len + 1)] and
    [Avg Order Value] is [Total Revenue / Transactions]. *)
Definition top_customers (sort_values : SortValues)
    (df_filtered : list MiniApp.SalesRow) : list TopCustomer :=
  imap (λ (i : nat) (c : Label * (Q * Q * nat * string)),
          let '(customer, (revenue, profit, transactions, segment)) := c in
          mkTopCustomer customer revenue profit transactions segment (S i)
            (fdiv (Finite revenue) (Finite (inject_Z (Z.of_nat transactions)))))
       (head 20 (sort_values _ (λ c : Label * (Q * Q * nat * string), c.2.1.1.1) false
                   (customer_totals df_filtered))).


(** *** Profitability Analysis: recommendations *)





End MiniDashboard.

(** ** Key metrics of the two sales dashboards *)

(** [urbanmart_final_project/app.py] and
    [urbanmart_streamlit_project/app.py] compute the same four figures
    from the filtered view, after the same test on its length. *)
Module SalesDashboard.



End SalesDashboard.

(** ** The console scripts: collections *)

(** [DataFrame.drop_duplicates()]: of equal rows the first one stays. *)
Fixpoint drop_duplicates {T : Type} `{EqDecision T} (df : list T) : list T :=
  match df with
  | [] => []
  | r :: rest => r :: filter (λ r', r' ≠ r) (drop_duplicates rest)
  end.

(** [Series.to_dict()] on a series indexed by [store_id]: the entries
    are written in table order, a later one replacing an earlier one
    with the same key. *)
Definition to_dict (series : list (string * string)) : gmap string string :=
  foldl (λ d kv, <[kv.1 := kv.2]> d) ∅ series.

(** [df[['store_id', 'store_location']].drop_duplicates()
    .set_index('store_id')['store_location'].to_dict()], the expression
    both scripts print. *)
Definition store_mapping (df : list Row) : gmap string string :=
  to_dict (drop_duplicates (map (λ r, (store_id r, store_location r)) df)).


(** The frame after [df['line_revenue'] = …] has been assigned in it. *)
Definition with_line_revenue (frame : DataFrame) : DataFrame :=
  mkDataFrame (rows frame)
              (<["line_revenue" := line_revenue_values (rows frame)]> (added frame)).

(** ** The console scripts: menus *)

(** What happens at a prompt of [input()]: a line is typed, or Ctrl-C
    is pressed.  When the list is used up the input has ended. *)
Inductive Keyboard : Type :=
| Typed (line : string)
| CtrlC.

(** The messages of the menus, with the figures they show. *)
Inductive Printed : Type :=
| Menu
| TotalRevenue (total : Q)
| RevenueByStore (revenue_dict : list (Label * Q))
| TopProducts (top_products : list (Label * Q))
| Goodbye
| Interrupted
| InvalidChoice
| ErrorMessage.

Definition is_menu (p : Printed) : bool :=
  match p with
  | Menu => true
  | _ => false
  end.

(** How a call of a menu ends. *)
Inductive Ending : Type :=
| Returned
| RaisedEOFError
| RaisedKeyboardInterrupt.

(** The choices that call a KPI function. *)
Definition kpi_choice (choice : string) : bool :=
  (choice =? "1")%string || (choice =? "2")%string || (choice =? "3")%string.

(** What ends the loop of a menu: a line that strips to ["4"], or
    Ctrl-C. *)
Definition ends_menu (strip : string → string) (k : Keyboard) : bool :=
  match k with
  | Typed line => (strip line =? "4")%string
  | CtrlC => true
  end.

(** A line that asks for a KPI. *)
Definition asks_kpi (strip : string → string) (k : Keyboard) : bool :=
  match k with
  | Typed line => kpi_choice (strip line)
  | CtrlC => false
  end.

Module MiniScript.

(** The counting loop of [demonstrate_data_structures]; the result is
    [(online_count, instore_count)]. *)
Definition channel_loop (df : list Row) : nat * nat :=
  foldl (λ (counts : nat * nat) (r : Row),
           let '(online_count, instore_count) := counts in
           if (channel r =? "Online")%string then (S online_count, instore_count)
           else if (channel r =? "In-store")%string then (online_count, S instore_count)
           else (online_count, instore_count))
        (0%nat, 0%nat) df.

Section Menu.
Variable strip : string → string.
Variable sort_values : SortValues.

(** The branches on [choice]: what is printed, whether the loop is
    left, and the heap afterwards.  A KPI function that raises has
    found no frame and has assigned nothing; the handler of
    [Exception] prints the message. *)
Definition on_choice (choice : string) (df : nat) (h : gmap nat DataFrame)
  : list Printed * bool * gmap nat DataFrame :=
  if (choice =? "1")%string then
    match MiniAnalysis.compute_total_revenue df h with
    | Some (total, h') => ([TotalRevenue total], false, h')
    | None => ([ErrorMessage], false, h)
    end
  else if (choice =? "2")%string then
    match MiniAnalysis.compute_revenue_by_store df h with
    | Some (revenue_dict, h') => ([RevenueByStore revenue_dict], false, h')
    | None => ([ErrorMessage], false, h)
    end
  else if (choice =? "3")%string then
    match MiniAnalysis.compute_top_n_products sort_values df 5 h with
    | Some (top_products, h') => ([TopProducts top_products], false, h')
    | None => ([ErrorMessage], false, h)
    end
  else if (choice =? "4")%string then ([Goodbye], true, h)
  else ([InvalidChoice], false, h).

(** [run_cli_menu(df)], for at most [rounds] passes through the loop;
    [None] when the loop is still running after them.  [input()] is
    inside the [try]: at the end of the input it raises [EOFError],
    which the handler of [Exception] catches, and the loop goes on. *)
Fixpoint run_cli_menu (rounds : nat) (keyboard : list Keyboard) (df : nat)
    (h : gmap nat DataFrame) : option (list Printed * gmap nat DataFrame) :=
  match rounds with
  | O => None
  | S rounds =>
      match keyboard with
      | [] =>
          match run_cli_menu rounds [] df h with
          | Some (printed, h') => Some (Menu :: ErrorMessage :: printed, h')
          | None => None
          end
      | CtrlC :: _ => Some ([Menu; Interrupted], h)
      | Typed line :: keyboard =>
          let '(printed, leave, h1) := on_choice (strip line) df h in
          if leave : bool then Some (Menu :: printed, h1)
          else
            match run_cli_menu rounds keyboard df h1 with
            | Some (rest, h2) => Some ((Menu :: printed) ++ rest, h2)%list
            | None => None
            end
      end
  end.

End Menu.

End MiniScript.

Module FinalScript.

(** A row as [csv.DictReader] yields it: a field name of the header
    maps to the cell, or to Python's [None] when the line is too short
    to have that cell. *)
Definition DictRow : Type := gmap string (option string).

(** [row.get("channel", "")] *)
Definition get_channel (row : DictRow) : option string :=
  default (Some "") (row !! "channel").

(** The loop of [manual_channel_counts_with_csv] over the rows read.
    [None.strip()] raises [AttributeError]; the handler of [Exception]
    ends the loop and the counts made so far are returned. *)
Fixpoint count_rows (strip : string → string) (reader : list DictRow)
    (counts : gmap string nat) : gmap string nat :=
  match reader with
  | [] => counts
  | row :: reader =>
      match get_channel row with
      | None => counts
      | Some cell =>
          let channel := strip cell in
          count_rows strip reader
            (match counts !! channel with
             | Some count => <[channel := S count]> counts
             | None => counts
             end)
      end
  end.

(** [file] is [None] when [open] raises [FileNotFoundError]. *)
Definition manual_channel_counts_with_csv (strip : string → string)
    (file : option (list DictRow)) : gmap string nat :=
  let counts : gmap string nat := {[ "Online" := 0%nat; "In-store" := 0%nat ]} in
  match file with
  | Some reader => count_rows strip reader counts
  | None => counts
  end.

(** The channel cells the loop gets to: those of the rows before the
    first row that is too short to have one. *)
Fixpoint cells_read (reader : list DictRow) : list string :=
  match reader with
  | [] => []
  | row :: reader =>
      match get_channel row with
      | None => []
      | Some cell => cell :: cells_read reader
      end
  end.

(** [if store:] on a [str | None]: [None] and the empty string are
    falsy. *)
Definition truthy (criterion : option string) : option string :=
  match criterion with
  | Some "" => None
  | other => other
  end.

(** [filter_data] of the script, with its optional criteria. *)
Definition filter_data (df : list Row) (start_date end_date : option Z)
    (store channel_ : option string) : list Row :=
  let filtered := df in
  let filtered :=
    match start_date with
    | Some start_date => filter (λ r, start_date ≤ date r) filtered
    | None => filtered
    end in
  let filtered :=
    match end_date with
    | Some end_date => filter (λ r, date r ≤ end_date) filtered
    | None => filtered
    end in
  let filtered :=
    match truthy store with
    | Some store => filter (λ r, store_id r = store) filtered
    | None => filtered
    end in
  let filtered :=
    match truthy channel_ with
    | Some channel_ => filter (λ r, channel r = channel_) filtered
    | None => filtered
    end in
  filtered.

(** The reading of a criterion in the docstring of [filter_data]: a
    value to meet, or [None] for all. *)
Definition meets {A : Type} (criterion : option A) (P : A → Prop) : Prop :=
  match criterion with
  | Some c => P c
  | None => True
  end.

Definition selected (start_date end_date : option Z) (store channel_ : option string)
    (r : Row) : Prop :=
  meets start_date (λ start_date, start_date ≤ date r)
  ∧ meets end_date (λ end_date, date r ≤ end_date)
  ∧ meets (truthy store) (λ store, store_id r = store)
  ∧ meets (truthy channel_) (λ channel_, channel r = channel_).

#[global] Instance meets_dec {A : Type} (criterion : option A) (P : A → Prop)
    `{!∀ c, Decision (P c)} : Decision (meets criterion P).
Proof. destruct criterion; simpl; apply _. Defined.

#[global] Instance selected_dec start_date end_date store channel_ r :
  Decision (selected start_date end_date store channel_ r).
Proof. unfold selected. apply _. Defined.


Section Menu.
Variable strip : string → string.
Variable sort_values : SortValues.


(** The [try] block of one pass through the loop of [cli_menu]. *)
Definition on_choice (choice : string) (df : nat) (h : gmap nat DataFrame)
  : list Printed * bool * gmap nat DataFrame :=
  if (choice =? "1")%string then
    match FinalAnalysis.compute_total_revenue df h with
    | Some (total_rev, h') => ([TotalRevenue total_rev], false, h')
    | None => ([ErrorMessage], false, h)
    end
  else if (choice =? "2")%string then
    match FinalAnalysis.compute_revenue_by_store df h with
    | Some (revenue_dict, h') => ([RevenueByStore revenue_dict], false, h')
    | None => ([ErrorMessage], false, h)
    end
  else if (choice =? "3")%string then
    match FinalAnalysis.compute_top_n_products sort_values df 5 h with
    | Some (top_products_df, h') => ([TopProducts top_products_df], false, h')
    | None => ([ErrorMessage], false, h)
    end
  else if (choice =? "4")%string then ([Goodbye], true, h)
  else ([InvalidChoice], false, h).

(** [cli_menu(df)].  [input()] stands before the [try]: what it raises
    leaves the function. *)
Fixpoint cli_menu (keyboard : list Keyboard) (df : nat) (h : gmap nat DataFrame)
  : list Printed * Ending * gmap nat DataFrame :=
  match keyboard with
  | [] => ([Menu], RaisedEOFError, h)
  | CtrlC :: _ => ([Menu], RaisedKeyboardInterrupt, h)
  | Typed line :: keyboard =>
      let '(printed, leave, h1) := on_choice (strip line) df h in
      if leave : bool then (Menu :: printed, Returned, h1)
      else
        let '(rest, ending, h2) := cli_menu keyboard df h1 in
        ((Menu :: printed) ++ rest, ending, h2)%list
  end.



End Menu.

End FinalScript.

(** * Properties *)

(** ** The steps of a filter are filters *)

Section FilterFacts.
Context {A : Type}.

Lemma filter_all (P : A → Prop) `{!∀ x, Decision (P x)} (l : list A) :
  (∀ x, x ∈ l → P x) → filter P l = l.
Proof.
  induction l as [|x l IH]; intros HP; [done|].
  rewrite filter_cons_True by (apply HP; left).
  f_equal. apply IH. intros y Hy. apply HP. by right.
Qed.

Lemma filter_none (P : A → Prop) `{!∀ x, Decision (P x)} (l : list A) :
  (∀ x, x ∈ l → ¬ P x) → filter P l = [].
Proof.
  induction l as [|x l IH]; intros HP; [done|].
  rewrite filter_cons_False by (apply HP; left).
  apply IH. intros y Hy. apply HP. by right.
Qed.

Lemma isin_filter_allowed (col : A → string) values (df : list A) :
  isin_filter col values df = filter (λ r, allowed values (col r)) df.
Proof.
  destruct values as [|v values]; simpl.
  - symmetry. apply filter_all. by intros r _ Hne.
  - apply list_filter_iff. intros r. unfold isin, allowed. naive_solver.
Qed.

Lemma channel_set_allowed (choice v : string) :
  allowed (channel_set choice) v ↔ (choice ≠ "All" → v = choice).
Proof.
  unfold allowed, channel_set.
  destruct (String.eqb_spec choice "All") as [->|Hne].
  - naive_solver.
  - rewrite list_elem_of_singleton. naive_solver.
Qed.

Lemma channel_filter_allowed (col : A → string) choice (df : list A) :
  channel_filter col choice df
  = filter (λ r, allowed (channel_set choice) (col r)) df.
Proof.
  unfold channel_filter.
  destruct (String.eqb_spec choice "All") as [->|Hne]; simpl.
  - symmetry. apply filter_all. intros r _. by apply channel_set_allowed.
  - apply list_filter_iff. intros r. rewrite channel_set_allowed. naive_solver.
Qed.
End FilterFacts.

Lemma segment_filter_mask date_segment custom_start custom_end
    (df : list MiniApp.SalesRow) :
  MiniApp.segment_filter date_segment custom_start custom_end df
  = filter (λ r : MiniApp.SalesRow,
              segment_mask date_segment custom_start custom_end r) df.
Proof.
  unfold MiniApp.segment_filter, date_filter, segment_mask, granularities.
  repeat match goal with
         | |- context [String.eqb date_segment ?s] =>
             destruct (String.eqb_spec date_segment s) as [->|?];
             [apply list_filter_iff; intros r; split;
              [tauto | intros H; apply H; set_solver]|]
         end.
  symmetry. apply filter_all. intros r _ Hin. set_solver.
Qed.

Lemma apply_filters_filter (df : list MiniApp.SalesRow) seg s e stores ch cats segs pms :
  MiniApp.apply_filters df seg s e stores ch cats segs pms
  = filter (λ r : MiniApp.SalesRow,
              apply_filters_mask seg s e stores ch cats segs pms r) df.
Proof.
  unfold MiniApp.apply_filters. cbv zeta.
  rewrite !isin_filter_allowed, channel_filter_allowed, segment_filter_mask.
  rewrite !list_filter_filter.
  apply list_filter_iff. intros r. unfold apply_filters_mask. tauto.
Qed.

Lemma filter_data_filter (df : list FinalApp.SalesRow) s e locations ch cats :
  FinalApp.filter_data df (s, e) locations ch cats
  = filter (λ r : FinalApp.SalesRow,
              passes s e locations (channel_set ch) (categories_set cats) [] [] r) df.
Proof.
  unfold FinalApp.filter_data. cbv zeta.
  assert (Hcats : ∀ l : list FinalApp.SalesRow,
             match cats with
             | Some categories =>
                 isin_filter (λ r : FinalApp.SalesRow, product_category r) categories l
             | None => l
             end
             = filter (λ r : FinalApp.SalesRow,
                         allowed (categories_set cats) (product_category r)) l).
  { intros l. destruct cats as [categories|]; simpl.
    - apply isin_filter_allowed.
    - symmetry. apply filter_all. by intros r _ Hne. }
  rewrite Hcats, channel_filter_allowed, isin_filter_allowed.
  unfold date_filter. rewrite !list_filter_filter.
  apply list_filter_iff. intros r. unfold passes, allowed. naive_solver.
Qed.

(** ** The filter *)

(** C1.  For a date segment among Daily, Weekly, Monthly, Quarterly and
    Yearly, [apply_filters] returns, in table order, exactly the rows
    whose date lies in the inclusive range and whose value in each
    dimension with a non-empty restriction set belongs to that set (the
    channel choice standing for the set [channel_set]); the result is
    the same for all five segments; [filter_data] does the same with
    its three dimensions. *)
Theorem filter_returns_exactly_passing_rows
    (df : list MiniApp.SalesRow) (fdf : list FinalApp.SalesRow)
    (date_segment : string) (date_from date_to : Z)
    (stores : list string) (channel_ : string)
    (categories segments payment_methods : list string) :
  date_segment ∈ granularities →
  MiniApp.apply_filters df date_segment date_from date_to stores channel_
                        categories segments payment_methods
  = filter (λ r : MiniApp.SalesRow,
              passes date_from date_to stores (channel_set channel_)
                     categories segments payment_methods r) df
  ∧ (∀ other_segment, other_segment ∈ granularities →
       MiniApp.apply_filters df other_segment date_from date_to stores channel_
                             categories segments payment_methods
       = MiniApp.apply_filters df date_segment date_from date_to stores channel_
                               categories segments payment_methods)
  ∧ (∀ selected_categories,
       FinalApp.filter_data fdf (date_from, date_to) stores channel_
                            selected_categories
       = filter (λ r : FinalApp.SalesRow,
                   passes date_from date_to stores (channel_set channel_)
                          (categories_set selected_categories) [] [] r) fdf).
Proof.
  intros Hseg. split; [|split].
  - rewrite apply_filters_filter. apply list_filter_iff. intros r.
    unfold apply_filters_mask, segment_mask, passes. tauto.
  - intros other Hother. rewrite !apply_filters_filter.
    apply list_filter_iff. intros r.
    unfold apply_filters_mask, segment_mask. tauto.
  - intros selected. apply filter_data_filter.
Qed.

Lemma filter_returns_exactly_passing_rows_witness :
  "Weekly" ∈ granularities
  ∧ MiniApp.apply_filters (MiniApp.load_data example_csv) "Weekly"
                          738886 738888 ["B"] "Online" [] [] []
    = filter (λ r : MiniApp.SalesRow,
                passes 738886 738888 ["B"] (channel_set "Online") [] [] [] r)
             (MiniApp.load_data example_csv).
Proof.
  split.
  - unfold granularities. repeat constructor.
  - apply (filter_returns_exactly_passing_rows
             (MiniApp.load_data example_csv) (FinalApp.load_data example_csv)
             "Weekly" 738886 738888 ["B"] "Online" [] [] []);
      unfold granularities; repeat constructor.
Defined.

(** C3, as the code has it.  When [date_from > date_to] the filter
    raises nothing: the call returns, and it returns the empty table. *)
Theorem inverted_range_returns_empty
    (df : list MiniApp.SalesRow) (fdf : list FinalApp.SalesRow)
    (date_segment : string) (date_from date_to : Z)
    (stores : list string) (channel_ : string)
    (categories segments payment_methods : list string)
    (selected_categories : option (list string)) :
  date_segment ∈ granularities →
  date_from > date_to →
  MiniApp.apply_filters_call df date_segment date_from date_to stores channel_
                             categories segments payment_methods
  = Returns []
  ∧ FinalApp.filter_data_call fdf (date_from, date_to) stores channel_
                              selected_categories
    = Returns [].
Proof.
  intros Hseg Hinv. unfold MiniApp.apply_filters_call, FinalApp.filter_data_call.
  split; f_equal.
  - rewrite apply_filters_filter. apply filter_none. intros r _ Hmask.
    destruct Hmask as [Hdate _]. specialize (Hdate Hseg). lia.
  - rewrite filter_data_filter. apply filter_none. intros r _ Hpass.
    destruct Hpass as [Hdate _]. lia.
Qed.

Lemma inverted_range_returns_empty_witness :
  "Daily" ∈ granularities
  ∧ 738888 > 738886
  ∧ MiniApp.apply_filters_call (MiniApp.load_data example_csv) "Daily"
                               738888 738886 [] "All" [] [] []
    = Returns []
  ∧ FinalApp.filter_data_call (FinalApp.load_data example_csv)
                              (738888, 738886) [] "All" None
    = Returns [].
Proof.
  split; [unfold granularities; repeat constructor|].
  split; [lia|].
  apply (inverted_range_returns_empty
           (MiniApp.load_data example_csv) (FinalApp.load_data example_csv)
           "Daily" 738888 738886 [] "All" [] [] [] None).
  - unfold granularities. repeat constructor.
  - lia.
Defined.

(** C3, as the specification states it, fails: with the bounds in the
    wrong order the call on the sample table returns the empty table
    and raises no [InvalidRangeError]. *)
Lemma inverted_range_is_not_rejected :
  738888 > 738886
  ∧ MiniApp.apply_filters_call (MiniApp.load_data example_csv) "Daily"
                               738888 738886 [] "All" [] [] []
    = Returns []
  ∧ MiniApp.apply_filters_call (MiniApp.load_data example_csv) "Daily"
                               738888 738886 [] "All" [] [] []
    ≠ Raises InvalidRangeError
  ∧ FinalApp.filter_data_call (FinalApp.load_data example_csv)
                              (738888, 738886) [] "All" None
    ≠ Raises InvalidRangeError.
Proof.
  split; [lia|]. split; [reflexivity|]. split; discriminate.
Qed.

(** C4.  With every restriction set empty and the channel choice "All",
    a date range that covers every row gives the table back unchanged. *)
Theorem empty_restrictions_pass_all
    (df : list MiniApp.SalesRow) (fdf : list FinalApp.SalesRow)
    (date_segment : string) (date_from date_to : Z) :
  (∀ r : MiniApp.SalesRow, r ∈ df → date_from ≤ date r ∧ date r ≤ date_to) →
  (∀ r : FinalApp.SalesRow, r ∈ fdf → date_from ≤ date r ∧ date r ≤ date_to) →
  MiniApp.apply_filters df date_segment date_from date_to [] "All" [] [] [] = df
  ∧ FinalApp.filter_data fdf (date_from, date_to) [] "All" None = fdf
  ∧ FinalApp.filter_data fdf (date_from, date_to) [] "All" (Some []) = fdf.
Proof.
  intros Hdf Hfdf. split; [|split].
  - rewrite apply_filters_filter. apply filter_all. intros r Hr.
    unfold apply_filters_mask, segment_mask, allowed. simpl.
    specialize (Hdf r Hr). tauto.
  - rewrite filter_data_filter. apply filter_all. intros r Hr.
    unfold passes, allowed. simpl. specialize (Hfdf r Hr). tauto.
  - rewrite filter_data_filter. apply filter_all. intros r Hr.
    unfold passes, allowed. simpl. specialize (Hfdf r Hr). tauto.
Qed.

Lemma in_example_dates (dates : list Z) (d : Z) :
  d ∈ dates → Forall (λ x, 738886 ≤ x ∧ x ≤ 738888) dates →
  738886 ≤ d ∧ d ≤ 738888.
Proof. intros Hd Hall. rewrite Forall_forall in Hall. by apply Hall. Qed.

Lemma empty_restrictions_pass_all_witness :
  MiniApp.apply_filters (MiniApp.load_data example_csv) "Monthly"
                        738886 738888 [] "All" [] [] []
  = MiniApp.load_data example_csv
  ∧ FinalApp.filter_data (FinalApp.load_data example_csv)
                         (738886, 738888) [] "All" None
    = FinalApp.load_data example_csv
  ∧ FinalApp.filter_data (FinalApp.load_data example_csv)
                         (738886, 738888) [] "All" (Some [])
    = FinalApp.load_data example_csv.
Proof.
  apply (empty_restrictions_pass_all
           (MiniApp.load_data example_csv) (FinalApp.load_data example_csv)
           "Monthly" 738886 738888).
  - intros r Hr.
    apply (in_example_dates (map (λ r : MiniApp.SalesRow, date r)
                                 (MiniApp.load_data example_csv))).
    + apply list_elem_of_fmap. by exists r.
    + repeat constructor; simpl; lia.
  - intros r Hr.
    apply (in_example_dates (map (λ r : FinalApp.SalesRow, date r)
                                 (FinalApp.load_data example_csv))).
    + apply list_elem_of_fmap. by exists r.
    + repeat constructor; simpl; lia.
Defined.

(** A [date_segment] outside the five granularities is not rejected
    either: no branch of the chain is taken and the dates are not
    looked at.  The sidebar offers the five only. *)
Lemma unknown_segment_skips_dates (df : list MiniApp.SalesRow)
    (date_segment : string) (date_from date_to : Z) :
  date_segment ∉ granularities →
  MiniApp.apply_filters df date_segment date_from date_to [] "All" [] [] [] = df.
Proof.
  intros Hseg. rewrite apply_filters_filter. apply filter_all. intros r _.
  unfold apply_filters_mask, segment_mask, allowed. simpl. tauto.
Qed.

(** C10.  Filtering a filtered table again with the same criteria
    changes nothing, whatever the criteria. *)
Theorem filter_idempotent
    (df : list MiniApp.SalesRow) (fdf : list FinalApp.SalesRow)
    (date_segment : string) (date_from date_to : Z)
    (stores : list string) (channel_ : string)
    (categories segments payment_methods : list string)
    (selected_categories : option (list string)) :
  MiniApp.apply_filters
    (MiniApp.apply_filters df date_segment date_from date_to stores channel_
                           categories segments payment_methods)
    date_segment date_from date_to stores channel_
    categories segments payment_methods
  = MiniApp.apply_filters df date_segment date_from date_to stores channel_
                          categories segments payment_methods
  ∧ FinalApp.filter_data
      (FinalApp.filter_data fdf (date_from, date_to) stores channel_
                            selected_categories)
      (date_from, date_to) stores channel_ selected_categories
    = FinalApp.filter_data fdf (date_from, date_to) stores channel_
                           selected_categories.
Proof.
  split.
  - rewrite !apply_filters_filter. by apply list_filter_filter_l.
  - rewrite !filter_data_filter. by apply list_filter_filter_l.
Qed.

(** ** Sums *)

Section SumFacts.
Context {R : Type}.
Implicit Types (col : R → Q) (df : list R).
Local Open Scope Q_scope.






End SumFacts.

(** ** Sorting by a measure *)

Lemma in_order_trans ascending (a b c : Q) :
  in_order ascending a b → in_order ascending b c → in_order ascending a c.
Proof.
  unfold in_order. destruct ascending; intros Hab Hbc.
  - by apply (Qle_trans a b c).
  - by apply (Qle_trans c b a).
Qed.

Lemma in_order_total ascending (a b : Q) :
  in_order ascending a b ∨ in_order ascending b a.
Proof.
  unfold in_order.
  destruct ascending; destruct (Qlt_le_dec a b) as [Hlt|Hle];
    auto using Qlt_le_weak.
Qed.

Lemma merge_sort_in_order {T : Type} (key : T → Q) ascending (l : list T) :
  StronglySorted (λ x y, in_order ascending (key x) (key y))
    (merge_sort (λ x y, in_order ascending (key x) (key y)) l).
Proof.
  assert (Htrans : Transitive (λ x y : T, in_order ascending (key x) (key y))).
  { intros x y z. apply in_order_trans. }
  assert (Htotal : Total (λ x y : T, in_order ascending (key x) (key y))).
  { intros x y. apply in_order_total. }
  apply (StronglySorted_merge_sort _).
Qed.

Lemma sort_values_stable_contract : sort_values_contract sort_values_stable.
Proof.
  split; intros T key ascending l; unfold sort_values_stable.
  - apply merge_sort_Permutation.
  - apply merge_sort_in_order.
Qed.

Lemma sort_values_reversing_contract : sort_values_contract sort_values_reversing.
Proof.
  split; intros T key ascending l; unfold sort_values_reversing.
  - rewrite merge_sort_Permutation. apply reverse_Permutation.
  - apply merge_sort_in_order.
Qed.

Section SortedRollups.
Variable sort_values : SortValues.
Hypothesis contract : sort_values_contract sort_values.



Lemma head_sorted {T : Type} (R : relation T) (n : Z) (l : list T) :
  StronglySorted R l → StronglySorted R (head n l).
Proof.
  intros Hs. unfold head.
  assert (Htake : ∀ m, StronglySorted R (take m l)).
  { intros m. rewrite <- (take_drop m l) in Hs.
    by apply StronglySorted_app_1_l in Hs. }
  destruct (0 <=? n); apply Htake.
Qed.

(** The top products come by falling revenue, ten at most, each a
    product of the view with its totals. *)
Lemma top_products_ordered (view : list MiniApp.SalesRow) :
  StronglySorted (λ x y, (MiniApp.sum_line_revenue y <= MiniApp.sum_line_revenue x)%Q)
                 (MiniApp.top_products sort_values view)
  ∧ (length (MiniApp.top_products sort_values view) ≤ 10)%nat
  ∧ ∀ t, t ∈ MiniApp.top_products sort_values view →
         t ∈ MiniApp.totals (λ r : MiniApp.SalesRow, LStr (product_name r)) view.
Proof.
  unfold MiniApp.top_products. split; [|split].
  - apply head_sorted.
    apply (sort_values_sorted _ contract _ MiniApp.sum_line_revenue false).
  - unfold head. simpl. rewrite length_take. lia.
  - intros t Ht. unfold head in Ht. simpl in Ht.
    apply elem_of_take in Ht as (i & Hi & _).
    apply list_elem_of_lookup_2 in Hi.
    by rewrite (sort_values_perm _ contract) in Hi.
Qed.
End SortedRollups.


(** A filtered view holds rows of the table only. *)
Lemma apply_filters_subset (df : list MiniApp.SalesRow) seg s e stores ch cats segs pms r :
  r ∈ MiniApp.apply_filters df seg s e stores ch cats segs pms → r ∈ df.
Proof.
  rewrite apply_filters_filter, list_elem_of_filter. tauto.
Qed.



(** The worked example of the specification: three rows with line
    revenues 20, 4 and 6; 30 in total, 24 for store A and 6 for store
    B; the restriction to store B keeps the third row alone. *)
Lemma worked_example :
  map MiniApp.line_revenue (MiniApp.load_data example_csv) = [20; 4; 6]%Q
  ∧ col_sum MiniApp.line_revenue (MiniApp.load_data example_csv) = 30%Q
  ∧ groupby_sum (MiniApp.grouping_column MiniApp.by_store) MiniApp.line_revenue
                (MiniApp.load_data example_csv)
    = [(LStr "A", 24%Q); (LStr "B", 6%Q)]
  ∧ map (λ r : MiniApp.SalesRow, (transaction_id r, MiniApp.line_revenue r))
        (MiniApp.apply_filters (MiniApp.load_data example_csv) "Daily"
                               738886 738888 ["B"] "All" [] [] [])
    = [("T3", 6%Q)].
Proof. repeat split; reflexivity. Qed.



(** ** The order of the group labels *)

Lemma ascii_compare_refl (c : ascii) : Ascii.compare c c = Eq.
Proof. unfold Ascii.compare. apply N.compare_refl. Qed.

Lemma ascii_compare_lt_trans (a b c : ascii) :
  Ascii.compare a b = Lt → Ascii.compare b c = Lt → Ascii.compare a c = Lt.
Proof.
  unfold Ascii.compare. rewrite !N.compare_lt_iff. apply N.lt_trans.
Qed.

Lemma string_compare_lt_trans (s1 s2 s3 : string) :
  String.compare s1 s2 = Lt → String.compare s2 s3 = Lt →
  String.compare s1 s3 = Lt.
Proof.
  revert s2 s3.
  induction s1 as [|c1 s1 IH]; intros [|c2 s2] [|c3 s3]; simpl; try done.
  destruct (Ascii.compare c1 c2) eqn:E12; try done;
    destruct (Ascii.compare c2 c3) eqn:E23; try done.
  - apply Ascii.compare_eq_iff in E12 as ->.
    apply Ascii.compare_eq_iff in E23 as ->.
    rewrite ascii_compare_refl. apply IH.
  - apply Ascii.compare_eq_iff in E12 as ->. by rewrite E23.
  - apply Ascii.compare_eq_iff in E23 as <-. by rewrite E12.
  - by rewrite (ascii_compare_lt_trans _ _ _ E12 E23).
Qed.

Lemma string_compare_refl (s : string) : String.compare s s = Eq.
Proof.
  induction s as [|c s IH]; simpl; [done|]. by rewrite ascii_compare_refl.
Qed.

Lemma label_compare_eq (a b : Label) : label_compare a b = Eq ↔ a = b.
Proof.
  destruct a as [s|d], b as [t|e]; simpl; try (split; done).
  - split.
    + by intros ->%String.compare_eq_iff.
    + intros [= ->]. apply string_compare_refl.
  - split.
    + by intros ->%Z.compare_eq_iff.
    + intros [= ->]. by apply Z.compare_eq_iff.
Qed.

Lemma label_compare_lt_trans (a b c : Label) :
  label_compare a b = Lt → label_compare b c = Lt → label_compare a c = Lt.
Proof.
  destruct a, b, c; simpl; try done.
  - apply string_compare_lt_trans.
  - rewrite !Z.compare_lt_iff. lia.
Qed.

Lemma label_compare_lt_ne (a b : Label) : label_compare a b = Lt → a ≠ b.
Proof. intros Hlt Heq. apply label_compare_eq in Heq. congruence. Qed.

Lemma label_compare_gt (a b : Label) : label_compare a b = Gt → label_lt b a.
Proof.
  unfold label_lt. destruct a as [s|d], b as [t|e]; simpl; try done.
  - rewrite (String.compare_antisym s t).
    by destruct (String.compare t s).
  - rewrite (Z.compare_antisym e d). by destruct (e ?= d).
Qed.

(** ** What [groupby] builds *)

Section GroupFacts.
Context {R : Type}.
Implicit Types (r : R) (k : Label) (groups : list (Label * list R)).

Lemma group_insert_labels k r groups k' :
  k' ∈ map fst (group_insert k r groups) → k' = k ∨ k' ∈ map fst groups.
Proof.
  induction groups as [|[k0 g] rest IH]; simpl.
  - rewrite list_elem_of_singleton. tauto.
  - destruct (label_compare k k0); simpl; rewrite !elem_of_cons; tauto.
Qed.

Lemma group_insert_sorted k r groups :
  labels_sorted groups → labels_sorted (group_insert k r groups).
Proof.
  unfold labels_sorted.
  induction groups as [|[k0 g] rest IH]; simpl; intros Hs.
  - repeat constructor.
  - apply StronglySorted_inv in Hs as [Hrest Hall].
    destruct (label_compare k k0) eqn:Hcmp; simpl.
    + by constructor.
    + constructor; [by constructor|].
      constructor; [done|].
      rewrite Forall_forall in Hall |- *. intros k' Hk'.
      apply (label_compare_lt_trans k k0 k'); [done|]. by apply Hall.
    + constructor; [by apply IH|].
      rewrite Forall_forall in Hall |- *. intros k' Hk'.
      apply group_insert_labels in Hk' as [->|Hk'].
      * by apply label_compare_gt.
      * by apply Hall.
Qed.

Lemma label_lookup_absent {V} k (groups : list (Label * V)) :
  k ∉ map fst groups → label_lookup k groups = None.
Proof.
  induction groups as [|[k0 v] rest IH]; simpl; [done|].
  rewrite not_elem_of_cons. intros [Hne Hrest].
  rewrite decide_False by done. by apply IH.
Qed.

Lemma label_lookup_group_insert k r groups k' :
  labels_sorted groups →
  label_lookup k' (group_insert k r groups)
  = if decide (k' = k) then Some ((group_rows k groups ++ [r])%list)
    else label_lookup k' groups.
Proof.
  unfold labels_sorted, group_rows.
  induction groups as [|[k0 g] rest IH]; simpl; intros Hs.
  - by repeat case_decide.
  - apply StronglySorted_inv in Hs as [Hrest Hall].
    destruct (label_compare k k0) eqn:Hcmp; simpl.
    + apply label_compare_eq in Hcmp as ->.
      rewrite (decide_True (P := k0 = k0)) by done. simpl.
      by repeat case_decide; simplify_eq.
    + pose proof (label_compare_lt_ne _ _ Hcmp) as Hne.
      rewrite (decide_False (P := k = k0)) by done.
      rewrite (label_lookup_absent k rest).
      * by repeat case_decide; simplify_eq.
      * intros Hin. rewrite Forall_forall in Hall.
        specialize (Hall k Hin).
        pose proof (label_compare_lt_trans _ _ _ Hcmp Hall) as Hkk.
        by apply label_compare_lt_ne in Hkk.
    + assert (Hne : k ≠ k0).
      { intros ->. assert (label_compare k0 k0 = Eq) by by apply label_compare_eq.
        congruence. }
      rewrite (decide_False (P := k = k0)) by done.
      rewrite IH by done.
      by repeat case_decide; simplify_eq.
Qed.

Lemma groupby_snoc (by_ : R → Label) (df : list R) r :
  groupby by_ (df ++ [r]) = group_insert (by_ r) r (groupby by_ df).
Proof. unfold groupby. by rewrite fold_left_app. Qed.

Lemma groupby_sorted (by_ : R → Label) (df : list R) :
  labels_sorted (groupby by_ df).
Proof.
  induction df as [|r df IH] using rev_ind.
  - constructor.
  - rewrite groupby_snoc. by apply group_insert_sorted.
Qed.

(** The group of label [k] holds the rows labelled [k], in table
    order; a label no row carries has no group. *)
Lemma label_lookup_groupby (by_ : R → Label) (df : list R) k :
  label_lookup k (groupby by_ df)
  = match filter (λ r, by_ r = k) df with
    | [] => None
    | g => Some g
    end.
Proof.
  induction df as [|r df IH] using rev_ind; [done|].
  rewrite groupby_snoc, label_lookup_group_insert by apply groupby_sorted.
  rewrite filter_app. unfold group_rows.
  case_decide as Hk.
  - subst k. rewrite IH, filter_cons_True, filter_nil by done.
    by destruct (filter _ df).
  - rewrite IH, filter_cons_False, filter_nil, app_nil_r by done.
    done.
Qed.
End GroupFacts.

Lemma label_lookup_map {V W : Type} (f : V → W) k (groups : list (Label * V)) :
  label_lookup k (map (λ kg, (kg.1, f kg.2)) groups) = f <$> label_lookup k groups.
Proof.
  induction groups as [|[k0 v] rest IH]; simpl; [done|].
  by case_decide.
Qed.

(** ** Sales by day of week *)

Lemma day_sales_rows (view : list MiniApp.SalesRow) :
  MiniApp.day_sales view = map (day_sales_row view) day_order.
Proof.
  unfold MiniApp.day_sales, reindex, MiniApp.day_groups.
  rewrite !map_map. apply map_ext. intros day. simpl.
  rewrite (label_lookup_map
             (λ g, (col_sum MiniApp.line_revenue g,
                    nunique (λ r : MiniApp.SalesRow, transaction_id r) g))).
  rewrite label_lookup_groupby. unfold day_sales_row.
  rewrite (list_filter_iff
             (λ r : MiniApp.SalesRow, LStr (MiniApp.day_of_week r) = LStr day)
             (λ r : MiniApp.SalesRow, MiniApp.day_of_week r = day))
    by (intros r; split; congruence).
  by destruct (filter _ view).
Qed.

(** C7.  Whatever the view and the order of its rows, the rows of
    [day_sales] are those of Monday, Tuesday, Wednesday, Thursday,
    Friday, Saturday and Sunday, in this order; the row of a day holds
    the revenue and the number of distinct transactions of the rows of
    that day, or NaN when the view has no such row. *)
Theorem day_sales_monday_to_sunday (view : list MiniApp.SalesRow) :
  map MiniApp.Day (MiniApp.day_sales view) = day_order
  ∧ MiniApp.day_sales view = map (day_sales_row view) day_order
  ∧ (∀ reordered : list MiniApp.SalesRow,
       reordered ≡ₚ view →
       map MiniApp.Day (MiniApp.day_sales reordered)
       = map MiniApp.Day (MiniApp.day_sales view)).
Proof.
  assert (Hdays : ∀ v, map MiniApp.Day (MiniApp.day_sales v) = day_order).
  { intros v. rewrite day_sales_rows, map_map.
    rewrite <- (map_id day_order) at 2. apply map_ext. intros day.
    unfold day_sales_row. by destruct (filter _ v). }
  split; [apply Hdays|]. split; [apply day_sales_rows|].
  intros reordered _. by rewrite !Hdays.
Qed.

Lemma day_sales_monday_to_sunday_witness :
  reverse (MiniApp.load_data example_csv) ≡ₚ MiniApp.load_data example_csv
  ∧ map MiniApp.Day (MiniApp.day_sales (reverse (MiniApp.load_data example_csv)))
    = map MiniApp.Day (MiniApp.day_sales (MiniApp.load_data example_csv)).
Proof.
  split; [apply reverse_Permutation|].
  destruct (day_sales_monday_to_sunday (MiniApp.load_data example_csv))
    as (_ & _ & Horder).
  apply Horder. apply reverse_Permutation.
Defined.

(** The groups themselves come in alphabetical order; the reindexing
    puts the days of the week in place. *)
Lemma day_groups_alphabetical :
  map fst (MiniApp.day_groups (MiniApp.load_data week_csv))
  = map LStr ["Friday"; "Monday"; "Saturday"; "Sunday"; "Thursday";
              "Tuesday"; "Wednesday"]
  ∧ map MiniApp.Day (MiniApp.day_sales (MiniApp.load_data week_csv)) = day_order.
Proof. split; reflexivity. Qed.

(** ** The margin of a row without revenue *)

Lemma Qis_zero_true (q : Q) : (q == 0)%Q → Qis_zero q = true.
Proof. intros Hq. unfold Qis_zero. by apply Qeq_bool_iff. Qed.

(** A row whose [line_revenue] is zero gets a [profit_margin] that is
    no number: NaN when the profit is zero too, an infinity otherwise. *)
Lemma zero_revenue_margin_not_finite (r : Row) :
  (MiniApp.line_revenue (MiniApp.derive r) == 0)%Q →
  MiniApp.profit_margin (MiniApp.derive r) = NaN
  ∨ MiniApp.profit_margin (MiniApp.derive r) = PosInf
  ∨ MiniApp.profit_margin (MiniApp.derive r) = NegInf.
Proof.
  simpl. intros Hzero. rewrite (Qis_zero_true _ Hzero).
  destruct (Qis_zero _); [by left|].
  destruct (Qis_neg _); simpl; tauto.
Qed.

(** C2, on the code.  The row with quantity 1, unit price 0 and
    discount 0 has [line_revenue] 0, and [load_data] gives it the
    [profit_margin] NaN, which is not the 0 the policy asks for. *)
Theorem zero_revenue_margin_is_nan :
  (MiniApp.line_revenue (MiniApp.derive zero_revenue_row) == 0)%Q
  ∧ map MiniApp.profit_margin (MiniApp.load_data [zero_revenue_row]) = [NaN]
  ∧ MiniApp.profit_margin (MiniApp.derive zero_revenue_row) ≠ Finite 0.
Proof. split; [reflexivity|]. split; [reflexivity | discriminate]. Qed.

(** ** Frames and the KPI functions *)

(** C9, on the code.  [compute_total_revenue] of
    [Mini_Project/urbanmart_analysis.py] returns the total 30 of the
    sample table and leaves the caller's frame with a column
    [line_revenue] it did not have: the shared table is changed. *)
Theorem mini_compute_total_revenue_changes_table :
  MiniAnalysis.compute_total_revenue 0 cli_heap
  = Some ((3000 # 100)%Q,
          {[ 0%nat := mkDataFrame example_csv
                                  {[ "line_revenue" := [20; 4; 6]%Q ]} ]})
  ∧ (3000 # 100 == 30)%Q
  ∧ cli_heap !! 0%nat = Some (mkDataFrame example_csv ∅)
  ∧ ({[ 0%nat := mkDataFrame example_csv {[ "line_revenue" := [20; 4; 6]%Q ]} ]}
       : gmap nat DataFrame) !! 0%nat
    ≠ cli_heap !! 0%nat.
Proof.
  split; [by vm_compute|]. split; [reflexivity|]. split; [reflexivity|].
  intros Heq. apply (f_equal (fmap added)) in Heq.
  vm_compute in Heq. discriminate.
Qed.

(** On any heap [compute_total_revenue] of the Mini_Project script sets
    the column in the caller's frame. *)
Lemma mini_compute_total_revenue_setitem (h : gmap nat DataFrame) df frame :
  h !! df = Some frame →
  ∃ total,
    MiniAnalysis.compute_total_revenue df h
    = Some (total,
            <[df := mkDataFrame (rows frame)
                      (<["line_revenue" := line_revenue_values (rows frame)]>
                         (added frame))]> h).
Proof.
  intros Hdf. eexists.
  unfold MiniAnalysis.compute_total_revenue, mbind, Py_bind, read, setitem,
    getitem, mret, Py_ret.
  rewrite Hdf. simpl. rewrite Hdf. simpl.
  rewrite lookup_insert_eq. simpl. rewrite lookup_insert_eq. simpl.
  reflexivity.
Qed.

Lemma fresh_ref_other (h : gmap nat DataFrame) l frame :
  h !! l = Some frame → fresh (dom h) ≠ l.
Proof.
  intros Hl Heq. apply (is_fresh (dom h)). rewrite Heq.
  apply elem_of_dom. by exists frame.
Qed.

Lemma add_line_revenue_column_spec (h : gmap nat DataFrame) df frame :
  h !! df = Some frame →
  FinalAnalysis.add_line_revenue_column df h
  = Some (fresh (dom h),
          <[fresh (dom h) :=
              mkDataFrame (rows frame)
                (<["line_revenue" := line_revenue_values (rows frame)]>
                   (added frame))]> h).
Proof.
  intros Hdf.
  unfold FinalAnalysis.add_line_revenue_column, mbind, Py_bind, copy, read,
    setitem, mret, Py_ret.
  rewrite Hdf. simpl. rewrite lookup_insert_eq. simpl.
  rewrite lookup_insert_eq. simpl. by rewrite insert_insert_eq.
Qed.

Lemma add_line_revenue_column_keeps_frames df :
  keeps_frames (FinalAnalysis.add_line_revenue_column df).
Proof.
  intros h result h' Hcall l frame Hl.
  destruct (h !! df) as [frame0|] eqn:Hdf.
  - rewrite (add_line_revenue_column_spec h df frame0 Hdf) in Hcall.
    injection Hcall as <- <-.
    rewrite lookup_insert_ne; [done|]. by apply (fresh_ref_other h l frame).
  - unfold FinalAnalysis.add_line_revenue_column, mbind, Py_bind, copy in Hcall.
    rewrite Hdf in Hcall. discriminate.
Qed.

Section KeepsFrames.
Context {A B : Type}.

Lemma keeps_frames_ret (a : A) : keeps_frames (mret a).
Proof. intros h result h' [= <- <-] l frame Hl. done. Qed.

Lemma keeps_frames_bind (m : Py A) (k : A → Py B) :
  keeps_frames m → (∀ a, keeps_frames (k a)) → keeps_frames (m ≫= k).
Proof.
  intros Hm Hk h result h' Hcall l frame Hl.
  unfold mbind, Py_bind in Hcall.
  destruct (m h) as [[a h1]|] eqn:Hmh; [|done].
  apply (Hk a h1 result h' Hcall). by apply (Hm h a h1 Hmh).
Qed.
End KeepsFrames.

Lemma keeps_frames_read df : keeps_frames (read df).
Proof.
  intros h result h' Hcall l frame Hl. unfold read in Hcall.
  destruct (h !! df); simpl in Hcall; by simplify_eq.
Qed.

Lemma keeps_frames_getitem df name : keeps_frames (getitem df name).
Proof.
  intros h result h' Hcall l frame Hl. unfold getitem in Hcall.
  destruct (h !! df) as [f|]; simpl in Hcall; [|done].
  destruct (added f !! name); simpl in Hcall; by simplify_eq.
Qed.

Lemma keeps_frames_has_column df name : keeps_frames (has_column df name).
Proof.
  intros h result h' Hcall l frame Hl. unfold has_column in Hcall.
  destruct (h !! df); simpl in Hcall; by simplify_eq.
Qed.

Lemma ensure_line_revenue_keeps_frames df :
  keeps_frames (FinalAnalysis.ensure_line_revenue df).
Proof.
  apply keeps_frames_bind; [apply keeps_frames_has_column|].
  intros [|]; simpl.
  - apply keeps_frames_ret.
  - apply add_line_revenue_column_keeps_frames.
Qed.

(** The final project's KPI functions leave every frame as it was. *)
Lemma final_compute_total_revenue_keeps_frames df :
  keeps_frames (FinalAnalysis.compute_total_revenue df).
Proof.
  apply keeps_frames_bind; [apply ensure_line_revenue_keeps_frames|].
  intros df'. apply keeps_frames_bind; [apply keeps_frames_getitem|].
  intros col. apply keeps_frames_ret.
Qed.

Lemma final_compute_revenue_by_store_keeps_frames df :
  keeps_frames (FinalAnalysis.compute_revenue_by_store df).
Proof.
  apply keeps_frames_bind; [apply ensure_line_revenue_keeps_frames|].
  intros df'. apply keeps_frames_bind; [apply keeps_frames_read|].
  intros frame. apply keeps_frames_bind; [apply keeps_frames_getitem|].
  intros col. apply keeps_frames_ret.
Qed.

Lemma final_compute_top_n_products_keeps_frames sort_values df n :
  keeps_frames (FinalAnalysis.compute_top_n_products sort_values df n).
Proof.
  apply keeps_frames_bind; [apply ensure_line_revenue_keeps_frames|].
  intros df'. apply keeps_frames_bind; [apply keeps_frames_read|].
  intros frame. apply keeps_frames_bind; [apply keeps_frames_getitem|].
  intros col. apply keeps_frames_ret.
Qed.

(** And they return: on a frame without the column the total is the sum
    of the line revenues of its rows. *)
Lemma final_compute_total_revenue_returns (h : gmap nat DataFrame) df frame :
  h !! df = Some frame →
  added frame !! "line_revenue" = None →
  ∃ h', FinalAnalysis.compute_total_revenue df h
        = Some (col_sum id (line_revenue_values (rows frame)), h')
        ∧ h' !! df = Some frame.
Proof.
  intros Hdf Hcol. eexists. split.
  - unfold FinalAnalysis.compute_total_revenue, FinalAnalysis.ensure_line_revenue.
    unfold mbind, Py_bind, has_column. simpl. rewrite Hdf. simpl.
    rewrite Hcol. simpl.
    rewrite (add_line_revenue_column_spec h df frame Hdf).
    unfold mbind, Py_bind, getitem, mret, Py_ret. rewrite lookup_insert_eq. simpl.
    rewrite lookup_insert_eq. simpl. reflexivity.
  - rewrite lookup_insert_ne; [done|]. by apply (fresh_ref_other h df frame).
Qed.

(** On the sample session the final project's function computes the
    same total and leaves the frame without the column. *)
Lemma final_compute_total_revenue_sample :
  ∃ h', FinalAnalysis.compute_total_revenue 0 cli_heap = Some (30%Q, h')
        ∧ h' !! 0%nat = cli_heap !! 0%nat.
Proof.
  destruct (final_compute_total_revenue_returns cli_heap 0%nat
              (mkDataFrame example_csv ∅)) as (h' & Hcall & Hframe);
    [reflexivity | reflexivity |].
  exists h'. split; [exact Hcall | by rewrite Hframe].
Qed.

(** ** Ties *)

(** Both routines meet the contract of [sort_values], and they list
    the two tied products in opposite orders: the contract does not
    settle the order among ties. *)
Lemma tie_order_depends_on_sorting_routine :
  sort_values_contract sort_values_stable
  ∧ sort_values_contract sort_values_reversing
  ∧ map MiniApp.label
        (MiniApp.top_products sort_values_stable (MiniApp.load_data tie_csv))
    = [LStr "Apples"; LStr "Bread"]
  ∧ map MiniApp.label
        (MiniApp.top_products sort_values_reversing (MiniApp.load_data tie_csv))
    = [LStr "Bread"; LStr "Apples"].
Proof.
  split; [apply sort_values_stable_contract|].
  split; [apply sort_values_reversing_contract|].
  split; by vm_compute.
Qed.

(** * The rest of the dashboards and scripts: properties *)

(** ** Growth and trend *)

Lemma Qeq_bool_false (a b : Q) : Qeq_bool a b = false → ¬ (a == b)%Q.
Proof. intros Hf Heq. apply Qeq_bool_iff in Heq. congruence. Qed.



Lemma get_trend_indicator_cases (value : Q) :
  (MiniDashboard.get_trend_indicator value = "📈" ↔ (0 < value)%Q)
  ∧ (MiniDashboard.get_trend_indicator value = "📉" ↔ (value < 0)%Q)
  ∧ (MiniDashboard.get_trend_indicator value = "➡️" ↔ (value == 0)%Q).
Proof.
  unfold MiniDashboard.get_trend_indicator.
  destruct (Qlt_le_dec 0 value) as [Hpos|Hle];
    [|destruct (Qlt_le_dec value 0) as [Hneg|Hge]];
    repeat split; intros H; try done; try lra; exfalso; lra.
Qed.

Lemma growth_sign (current previous : Q) :
  ¬ (previous == 0)%Q →
  ((0 < (current - previous) / previous * 100)%Q
   ↔ ((0 < previous)%Q ∧ (previous < current)%Q)
     ∨ ((previous < 0)%Q ∧ (current < previous)%Q))
  ∧ (((current - previous) / previous * 100 < 0)%Q
     ↔ ((0 < previous)%Q ∧ (current < previous)%Q)
       ∨ ((previous < 0)%Q ∧ (previous < current)%Q))
  ∧ (((current - previous) / previous * 100 == 0)%Q ↔ (current == previous)%Q).
Proof.
  intros Hnz.
  set (g := ((current - previous) / previous * 100)%Q).
  assert (Hg : (g * previous == (current - previous) * 100)%Q)
    by (unfold g; field; exact Hnz).
  destruct (Q_dec previous 0) as [[Hneg|Hpos]|Hz]; [| |contradiction].
  - repeat split.
    + intros Hgp. right. split; [done|]. nra.
    + intros [[Hp _]|[_ Hc]]; [lra|]. nra.
    + intros Hgn. right. split; [done|]. nra.
    + intros [[Hp _]|[_ Hc]]; [lra|]. nra.
    + intros Hgz. rewrite Hgz in Hg. lra.
    + intros Heq. nra.
  - repeat split.
    + intros Hgp. left. split; [done|]. nra.
    + intros [[_ Hc]|[Hp _]]; [|lra]. nra.
    + intros Hgn. left. split; [done|]. nra.
    + intros [[_ Hc]|[Hp _]]; [|lra]. nra.
    + intros Hgz. rewrite Hgz in Hg. lra.
    + intros Heq. nra.
Qed.

(** X2.  The trend indicator of a growth points up exactly when the
    current value lies beyond the baseline on the baseline's own side
    (above a positive baseline, below a negative one), down in the
    opposite case, and sideways when the values are equal or the
    baseline is zero, however large the current value then is. *)
Theorem trend_of_growth (current previous : Q) :
  (MiniDashboard.get_trend_indicator
     (MiniDashboard.calculate_growth current previous) = "📈"
   ↔ ((0 < previous)%Q ∧ (previous < current)%Q)
     ∨ ((previous < 0)%Q ∧ (current < previous)%Q))
  ∧ (MiniDashboard.get_trend_indicator
       (MiniDashboard.calculate_growth current previous) = "📉"
     ↔ ((0 < previous)%Q ∧ (current < previous)%Q)
       ∨ ((previous < 0)%Q ∧ (previous < current)%Q))
  ∧ (MiniDashboard.get_trend_indicator
       (MiniDashboard.calculate_growth current previous) = "➡️"
     ↔ (previous == 0)%Q ∨ (current == previous)%Q).
Proof.
  destruct (get_trend_indicator_cases
              (MiniDashboard.calculate_growth current previous))
    as (Hup & Hdown & Hflat).
  rewrite Hup, Hdown, Hflat. clear Hup Hdown Hflat.
  unfold MiniDashboard.calculate_growth.
  destruct (Qeq_bool previous 0) eqn:Hb.
  - apply Qeq_bool_iff in Hb.
    repeat split; intros H; try lra;
      try (destruct H as [[H _]|[H _]]; lra); by left.
  - apply Qeq_bool_false in Hb.
    destruct (growth_sign current previous Hb) as (Hup & Hdown & Hflat).
    rewrite Hup, Hdown, Hflat. repeat split; tauto.
Qed.


(** ** Distinct values and groups *)

Lemma elem_of_distinct (l : list string) (x : string) : x ∈ distinct l ↔ x ∈ l.
Proof.
  induction l as [|y l IH]; simpl; [done|].
  destruct (decide (y ∈ l)) as [Hin|Hout].
  - rewrite IH, elem_of_cons. split; [tauto|]. intros [->|H]; done.
  - rewrite !elem_of_cons, IH. done.
Qed.

Lemma NoDup_distinct (l : list string) : NoDup (distinct l).
Proof.
  induction l as [|y l IH]; simpl; [constructor|].
  destruct (decide (y ∈ l)) as [Hin|Hout]; [done|].
  constructor; [|done]. by rewrite elem_of_distinct.
Qed.


Section CountFacts.
Context {R : Type}.
Implicit Types (df : list R) (k : Label).


Lemma nunique_zero (col : R → string) df : nunique col df = 0%nat ↔ df = [].
Proof.
  unfold nunique. split; [|by intros ->].
  destruct df as [|r df]; [done|]. intros Hlen.
  apply length_zero_iff_nil in Hlen.
  assert (Hin : col r ∈ distinct (map col (r :: df))).
  { apply elem_of_distinct. simpl. left. }
  rewrite Hlen in Hin. by apply elem_of_nil in Hin.
Qed.

Lemma label_lt_irrefl k : ¬ label_lt k k.
Proof.
  unfold label_lt. intros Hlt.
  assert (label_compare k k = Eq) by by apply label_compare_eq.
  congruence.
Qed.

Lemma labels_sorted_NoDup (groups : list (Label * list R)) :
  labels_sorted groups → NoDup (map fst groups).
Proof.
  unfold labels_sorted. induction 1 as [|k ks _ IH Hall]; constructor; [|done].
  intros Hin. rewrite Forall_forall in Hall.
  by apply (label_lt_irrefl k), Hall.
Qed.

Lemma label_lookup_elem {V : Type} k (v : V) (groups : list (Label * V)) :
  label_lookup k groups = Some v → (k, v) ∈ groups.
Proof.
  induction groups as [|[k0 v0] rest IH]; simpl; [done|].
  case_decide as Hk.
  - intros [= ->]. subst. left.
  - intros Hrest. right. by apply IH.
Qed.

Lemma elem_label_lookup {V : Type} k (v : V) (groups : list (Label * V)) :
  NoDup (map fst groups) → (k, v) ∈ groups → label_lookup k groups = Some v.
Proof.
  induction groups as [|[k0 v0] rest IH]; simpl; intros Hnd Hin.
  - by apply elem_of_nil in Hin.
  - apply NoDup_cons in Hnd as [Hk0 Hnd].
    apply elem_of_cons in Hin as [[= -> ->]|Hin].
    + by rewrite decide_True.
    + case_decide as Hk.
      * subst. exfalso. apply Hk0.
        apply (list_elem_of_fmap_2 fst) in Hin. done.
      * by apply IH.
Qed.

(** The groups of [groupby]: to each label that occurs, the rows that
    carry it, in table order; no group is empty. *)
Lemma groupby_elem (by_ : R → Label) df k (g : list R) :
  (k, g) ∈ groupby by_ df ↔ g = filter (λ r, by_ r = k) df ∧ g ≠ [].
Proof.
  pose proof (labels_sorted_NoDup _ (groupby_sorted by_ df)) as Hnd.
  pose proof (label_lookup_groupby by_ df k) as Hlookup.
  split.
  - intros Hin. apply (elem_label_lookup _ _ _ Hnd) in Hin.
    rewrite Hin in Hlookup.
    destruct (filter _ df) as [|r rows]; [done|].
    by injection Hlookup as ->.
  - intros [-> Hne]. apply label_lookup_elem. rewrite Hlookup.
    by destruct (filter _ df).
Qed.

Lemma groupby_labels (by_ : R → Label) df k :
  k ∈ map fst (groupby by_ df) ↔ ∃ r, r ∈ df ∧ by_ r = k.
Proof.
  split.
  - intros Hin. apply list_elem_of_fmap in Hin as ([k' g] & -> & Hin).
    apply groupby_elem in Hin as [-> Hne]. simpl.
    destruct (filter _ df) as [|r rows] eqn:Hf; [done|].
    assert (Hr : r ∈ filter (λ r, by_ r = k') df) by (rewrite Hf; left).
    apply list_elem_of_filter in Hr as [Hk Hr]. by exists r.
  - intros (r & Hr & Hk).
    apply list_elem_of_fmap.
    exists (k, filter (λ r, by_ r = k) df). split; [done|].
    apply groupby_elem. split; [done|].
    intros Hnil.
    assert (Hin : r ∈ filter (λ r, by_ r = k) df)
      by (apply list_elem_of_filter; done).
    rewrite Hnil in Hin. by apply elem_of_nil in Hin.
Qed.

(** As many groups as distinct values. *)
Lemma groupby_length_nunique (col : R → string) df :
  length (groupby (λ r, LStr (col r)) df) = nunique col df.
Proof.
  unfold nunique.
  rewrite <- (length_map fst (groupby _ df)).
  rewrite <- (length_map LStr (distinct (map col df))).
  apply Permutation_length, NoDup_Permutation.
  - apply labels_sorted_NoDup, groupby_sorted.
  - assert (Hinj : Inj (=) (=) LStr) by (by intros s t [= ->]).
    apply (NoDup_fmap_2 LStr), NoDup_distinct.
  - intros k. rewrite groupby_labels. split.
    + intros (r & Hr & <-). apply (list_elem_of_fmap_2 LStr).
      apply elem_of_distinct. by apply (list_elem_of_fmap_2 col).
    + intros Hin. apply list_elem_of_fmap in Hin as (s & -> & Hin).
      apply (proj1 (elem_of_distinct _ _)) in Hin.
      apply list_elem_of_fmap in Hin as (r & -> & Hr). by exists r.
Qed.
End CountFacts.


(** ** Key performance indicators *)


Lemma inject_nat_pos (n : nat) : (0 < n)%nat → (0 < inject_Z (Z.of_nat n))%Q.
Proof. intros Hn. unfold Qlt. simpl. lia. Qed.

Section SumOrder.
Context {R : Type}.
Implicit Types (col : R → Q) (df : list R).
Local Open Scope Q_scope.



End SumOrder.

(** A row of a filtered view of a loaded table is the derived row of a
    row of the CSV file. *)
Lemma view_row_derived (csv : list Row) seg s e stores ch cats segs pms
    (r : MiniApp.SalesRow) :
  r ∈ MiniApp.apply_filters (MiniApp.load_data csv) seg s e stores ch cats segs pms →
  r = MiniApp.derive (MiniApp.base r) ∧ MiniApp.base r ∈ csv.
Proof.
  intros Hr. apply apply_filters_subset in Hr.
  unfold MiniApp.load_data in Hr.
  apply list_elem_of_fmap in Hr as (r0 & -> & Hr0). by split.
Qed.







(** ** Customer metrics *)




Lemma NoDup_column_filter {R : Type} (col : R → string) (df : list R) :
  NoDup (map col df)
  ↔ ∀ s, (length (filter (λ r, col r = s) df) ≤ 1)%nat.
Proof.
  induction df as [|r df IH]; simpl.
  - split; [intros _ s; simpl; lia | intros _; constructor].
  - rewrite NoDup_cons, IH. split.
    + intros [Hout Hall] s. rewrite filter_cons.
      case_decide as Hs; [|apply Hall]. simpl.
      rewrite (filter_none (λ r0, col r0 = s) df); [simpl; lia|].
      intros x Hx Hcol. apply Hout. subst s. rewrite <- Hcol.
      by apply (list_elem_of_fmap_2 col).
    + intros Hall. split.
      * intros Hin. apply list_elem_of_fmap in Hin as (x & Hcol & Hx).
        specialize (Hall (col r)). rewrite filter_cons_True in Hall by done.
        simpl in Hall.
        assert (Hxin : x ∈ filter (λ r0, col r0 = col r) df)
          by (apply list_elem_of_filter; done).
        destruct (filter _ df); [by apply elem_of_nil in Hxin|simpl in Hall; lia].
      * intros s. specialize (Hall s). rewrite filter_cons in Hall.
        case_decide; simpl in Hall; lia.
Qed.

(** X7.  The repeat customer rate lies between 0 and 100, and it is 0
    exactly when no customer id occurs on two rows of the view: a
    customer counts as repeating as soon as two rows carry the id,
    whether or not they belong to one transaction. *)
Theorem repeat_rate_counts_rows (view : list MiniApp.SalesRow) :
  (0 <= MiniDashboard.repeat_rate view)%Q
  ∧ (MiniDashboard.repeat_rate view <= 100)%Q
  ∧ ((MiniDashboard.repeat_rate view == 0)%Q
     ↔ NoDup (map (λ r : MiniApp.SalesRow, customer_id r) view)).
Proof.
  unfold MiniDashboard.repeat_rate.
  set (repeating := filter (λ kn : Label * nat, (1 < kn.2)%nat)
                           (MiniDashboard.repeat_customers view)).
  assert (Hgroups : length (MiniDashboard.repeat_customers view)
                    = MiniDashboard.unique_customers view).
  { unfold MiniDashboard.repeat_customers. rewrite length_map.
    apply (groupby_length_nunique (λ r : MiniApp.SalesRow, customer_id r)). }
  assert (Hle : (length repeating ≤ MiniDashboard.unique_customers view)%nat).
  { rewrite <- Hgroups. apply length_filter. }
  assert (Hnone : repeating = []
            ↔ NoDup (map (λ r : MiniApp.SalesRow, customer_id r) view)).
  { rewrite NoDup_column_filter. unfold repeating, MiniDashboard.repeat_customers.
    split.
    - intros Hnil s.
      destruct (filter (λ r : MiniApp.SalesRow, customer_id r = s) view)
        as [|r1 [|r2 g]] eqn:Hg; simpl; [lia|lia|]. exfalso.
      assert (Hin : (LStr s, r1 :: r2 :: g)
                ∈ groupby (λ r : MiniApp.SalesRow, LStr (customer_id r)) view).
      { apply groupby_elem. split; [|done]. rewrite <- Hg.
        apply list_filter_iff. intros r. split; congruence. }
      apply (list_elem_of_fmap_2 (λ kg : Label * list MiniApp.SalesRow,
                                    (kg.1, length kg.2))) in Hin.
      assert (Hrep : (LStr s, length (r1 :: r2 :: g))
                ∈ filter (λ kn : Label * nat, (1 < kn.2)%nat)
                    (map (λ kg : Label * list MiniApp.SalesRow, (kg.1, length kg.2))
                       (groupby (λ r : MiniApp.SalesRow, LStr (customer_id r)) view))).
      { apply list_elem_of_filter. split; [simpl; lia|exact Hin]. }
      rewrite Hnil in Hrep. by apply elem_of_nil in Hrep.
    - intros Hall. apply filter_none. intros [k n] Hin Hn. simpl in Hn.
      apply list_elem_of_fmap in Hin as ([k' g] & [= -> ->] & Hin).
      apply groupby_elem in Hin as [-> _].
      destruct k' as [s|d].
      + specialize (Hall s).
        rewrite (list_filter_iff
                   (λ r : MiniApp.SalesRow, LStr (customer_id r) = LStr s)
                   (λ r : MiniApp.SalesRow, customer_id r = s)) in Hn
          by (intros r; split; congruence).
        lia.
      + rewrite (filter_none (λ r : MiniApp.SalesRow, LStr (customer_id r) = LDay d))
          in Hn by (intros r _ Hr; discriminate).
        simpl in Hn. lia. }
  destruct (0 <? MiniDashboard.unique_customers view)%nat eqn:Hn.
  - apply Nat.ltb_lt in Hn.
    pose proof (inject_nat_pos _ Hn) as Hpos.
    set (n := inject_Z (Z.of_nat (MiniDashboard.unique_customers view))) in *.
    set (c := inject_Z (Z.of_nat (length repeating))).
    assert (Hc0 : (0 <= c)%Q) by (unfold c, Qle; simpl; lia).
    assert (Hcn : (c <= n)%Q) by (unfold c, n, Qle; simpl; lia).
    assert (Hq : (c / n * 100 == (c * 100) / n)%Q) by (field; lra).
    split; [|split].
    + rewrite Hq. apply Qle_shift_div_l; [done|]. lra.
    + rewrite Hq. apply Qle_shift_div_r; [done|]. lra.
    + rewrite <- Hnone. split.
      * intros Hzero.
        assert (Hcz : (c == 0)%Q).
        { assert (Hm : (c / n * 100 * n == c * 100)%Q) by (field; lra).
          rewrite Hzero in Hm. lra. }
        unfold c, Qeq in Hcz. simpl in Hcz.
        apply length_zero_iff_nil. lia.
      * intros Hnil. unfold c. rewrite Hnil. simpl. field. lra.
  - apply Nat.ltb_ge in Hn.
    assert (Hempty : view = []).
    { apply (nunique_zero (λ r : MiniApp.SalesRow, customer_id r)).
      unfold MiniDashboard.unique_customers in Hn. lia. }
    split; [lra|]. split; [lra|]. subst view. split; [constructor|reflexivity].
Qed.

(** One customer, one transaction, two line items: the rate is 100. *)
Lemma repeat_rate_single_transaction :
  MiniDashboard.total_transactions
    (MiniApp.load_data [ sample_row "T1" 738886 "A" "Rice" 1 5 0 "Online";
                         sample_row "T1" 738886 "A" "Milk" 1 5 0 "Online" ])
  = 1%nat
  ∧ (MiniDashboard.repeat_rate
       (MiniApp.load_data [ sample_row "T1" 738886 "A" "Rice" 1 5 0 "Online";
                            sample_row "T1" 738886 "A" "Milk" 1 5 0 "Online" ])
     == 100)%Q.
Proof. split; reflexivity. Qed.


(** ** Store comparison *)







(** A store whose sales are fully discounted has no margin to show. *)
Lemma store_metrics_margin_nan :
  map MiniDashboard.store_profit_margin
      (MiniDashboard.store_metrics
         (MiniApp.load_data [ sample_row "T1" 738886 "A" "Rice" 1 5 5 "Online" ]))
  = [NegInf].
Proof. reflexivity. Qed.

(** ** The position of the greatest value *)







(** ** Best and slowest day *)

Lemma float_le_refl (x : float64) : x ≠ NaN → float_le x x = true.
Proof.
  destruct x as [q| | |]; simpl; try done. intros _.
  apply Qle_bool_iff. apply Qle_refl.
Qed.

Lemma float_le_trans (x y z : float64) :
  float_le x y = true → float_le y z = true → float_le x z = true.
Proof.
  destruct x as [a| | |], y as [b| | |], z as [c| | |]; simpl; try done.
  rewrite !Qle_bool_iff. apply Qle_trans.
Qed.

Lemma float_le_total (x y : float64) :
  x ≠ NaN → y ≠ NaN → float_le x y = false → float_le y x = true.
Proof.
  destruct x as [a| | |], y as [b| | |]; simpl; try done.
  intros _ _ Hf. apply Qle_bool_iff.
  destruct (Qlt_le_dec b a) as [Hlt|Hle]; [by apply Qlt_le_weak|].
  apply Qle_bool_iff in Hle. congruence.
Qed.

Lemma float_nan_cases (x : float64) : x = NaN ∨ x ≠ NaN.
Proof. destruct x; auto. Qed.

Lemma float_idxmax_None (values : list float64) :
  float_idxmax values = None → ∀ x, x ∈ values → x = NaN.
Proof.
  induction values as [|x rest IH]; simpl; intros Hnone y Hy.
  - by apply elem_of_nil in Hy.
  - destruct (float_idxmax rest) as [i|] eqn:Hrest.
    + destruct x; try done; by destruct (float_le _ _).
    + apply elem_of_cons in Hy as [->|Hy]; [by destruct x|by apply IH].
Qed.

Lemma float_idxmin_None (values : list float64) :
  float_idxmin values = None → ∀ x, x ∈ values → x = NaN.
Proof.
  induction values as [|x rest IH]; simpl; intros Hnone y Hy.
  - by apply elem_of_nil in Hy.
  - destruct (float_idxmin rest) as [i|] eqn:Hrest.
    + destruct x; try done; by destruct (float_le _ _).
    + apply elem_of_cons in Hy as [->|Hy]; [by destruct x|by apply IH].
Qed.

(** The cell [idxmax] points at is a number no smaller than any other
    number of the column. *)
Lemma float_idxmax_spec (values : list float64) (i : nat) :
  float_idxmax values = Some i →
  ∃ x, values !! i = Some x ∧ x ≠ NaN
       ∧ ∀ y, y ∈ values → y ≠ NaN → float_le y x = true.
Proof.
  revert i. induction values as [|x rest IH]; intros i; simpl; [done|].
  destruct (float_idxmax rest) as [b|] eqn:Hrest.
  - destruct (IH b eq_refl) as (xb & Hb & Hnan & Hall).
    assert (Hnth : nth b rest NaN = xb) by by apply nth_lookup_Some.
    assert (Hkeep : ∃ x', (x :: rest) !! S b = Some x' ∧ x' ≠ NaN
              ∧ ∀ y, y ∈ rest → y ≠ NaN → float_le y x' = true)
      by (exists xb; done).
    destruct (float_nan_cases x) as [->|Hx].
    { simpl. intros [= <-]. destruct Hkeep as (x' & ? & ? & Hrest').
      exists x'. split; [done|]. split; [done|].
      intros y Hy Hyn. apply elem_of_cons in Hy as [->|Hy]; [done|by apply Hrest']. }
    assert (Hbranch : (if float_le (nth b rest NaN) x then Some 0%nat else Some (S b))
                      = Some i →
              ∃ x', (x :: rest) !! i = Some x' ∧ x' ≠ NaN
                    ∧ ∀ y, y ∈ x :: rest → y ≠ NaN → float_le y x' = true).
    { rewrite Hnth. destruct (float_le xb x) eqn:Hle; intros [= <-].
      - exists x. split; [done|]. split; [done|].
        intros y Hy Hyn. apply elem_of_cons in Hy as [->|Hy].
        + by apply float_le_refl.
        + apply (float_le_trans y xb x); [by apply Hall|done].
      - exists xb. split; [done|]. split; [done|].
        intros y Hy Hyn. apply elem_of_cons in Hy as [->|Hy].
        + by apply float_le_total.
        + by apply Hall. }
    destruct x; try done; exact Hbranch.
  - pose proof (float_idxmax_None rest Hrest) as Hnans.
    destruct (float_nan_cases x) as [->|Hx]; [done|].
    assert (Hzero : Some 0%nat = Some i →
              ∃ x', (x :: rest) !! i = Some x' ∧ x' ≠ NaN
                    ∧ ∀ y, y ∈ x :: rest → y ≠ NaN → float_le y x' = true).
    { intros [= <-]. exists x. split; [done|]. split; [done|].
      intros y Hy Hyn. apply elem_of_cons in Hy as [->|Hy].
      - by apply float_le_refl.
      - by apply Hnans in Hy. }
    destruct x; try done; exact Hzero.
Qed.

Lemma float_idxmin_spec (values : list float64) (i : nat) :
  float_idxmin values = Some i →
  ∃ x, values !! i = Some x ∧ x ≠ NaN
       ∧ ∀ y, y ∈ values → y ≠ NaN → float_le x y = true.
Proof.
  revert i. induction values as [|x rest IH]; intros i; simpl; [done|].
  destruct (float_idxmin rest) as [b|] eqn:Hrest.
  - destruct (IH b eq_refl) as (xb & Hb & Hnan & Hall).
    assert (Hnth : nth b rest NaN = xb) by by apply nth_lookup_Some.
    destruct (float_nan_cases x) as [->|Hx].
    { simpl. intros [= <-]. exists xb. split; [done|]. split; [done|].
      intros y Hy Hyn. apply elem_of_cons in Hy as [->|Hy]; [done|by apply Hall]. }
    assert (Hbranch : (if float_le x (nth b rest NaN) then Some 0%nat else Some (S b))
                      = Some i →
              ∃ x', (x :: rest) !! i = Some x' ∧ x' ≠ NaN
                    ∧ ∀ y, y ∈ x :: rest → y ≠ NaN → float_le x' y = true).
    { rewrite Hnth. destruct (float_le x xb) eqn:Hle; intros [= <-].
      - exists x. split; [done|]. split; [done|].
        intros y Hy Hyn. apply elem_of_cons in Hy as [->|Hy].
        + by apply float_le_refl.
        + apply (float_le_trans x xb y); [done|by apply Hall].
      - exists xb. split; [done|]. split; [done|].
        intros y Hy Hyn. apply elem_of_cons in Hy as [->|Hy].
        + by apply float_le_total.
        + by apply Hall. }
    destruct x; try done; exact Hbranch.
  - pose proof (float_idxmin_None rest Hrest) as Hnans.
    destruct (float_nan_cases x) as [->|Hx]; [done|].
    assert (Hzero : Some 0%nat = Some i →
              ∃ x', (x :: rest) !! i = Some x' ∧ x' ≠ NaN
                    ∧ ∀ y, y ∈ x :: rest → y ≠ NaN → float_le x' y = true).
    { intros [= <-]. exists x. split; [done|]. split; [done|].
      intros y Hy Hyn. apply elem_of_cons in Hy as [->|Hy].
      - by apply float_le_refl.
      - by apply Hnans in Hy. }
    destruct x; try done; exact Hzero.
Qed.


Lemma day_name_in_day_order (d : Z) : day_name d ∈ day_order.
Proof.
  unfold day_name. apply list_elem_of_In, nth_In.
  pose proof (Z.mod_pos_bound (d + 6) 7 ltac:(lia)). simpl. lia.
Qed.

Lemma loaded_day_of_week (csv : list Row) seg s e stores ch cats segs pms
    (r : MiniApp.SalesRow) :
  r ∈ MiniApp.apply_filters (MiniApp.load_data csv) seg s e stores ch cats segs pms →
  MiniApp.day_of_week r ∈ day_order.
Proof.
  intros Hr. apply view_row_derived in Hr as [-> _]. simpl.
  apply day_name_in_day_order.
Qed.

(** The row of a day: NaN when the view has no row of that day, the
    revenue of its rows otherwise. *)
Lemma day_sales_row_cases (view : list MiniApp.SalesRow) (day : string) :
  MiniApp.Day (day_sales_row view day) = day
  ∧ ((MiniApp.Revenue (day_sales_row view day) = NaN
      ∧ ∀ r : MiniApp.SalesRow, r ∈ view → MiniApp.day_of_week r ≠ day)
     ∨ (MiniApp.Revenue (day_sales_row view day)
        = Finite (col_sum MiniApp.line_revenue
                    (filter (λ r : MiniApp.SalesRow, MiniApp.day_of_week r = day) view))
        ∧ ∃ r : MiniApp.SalesRow, r ∈ view ∧ MiniApp.day_of_week r = day)).
Proof.
  unfold day_sales_row.
  destruct (filter (λ r : MiniApp.SalesRow, MiniApp.day_of_week r = day) view)
    as [|r0 g] eqn:Hg; simpl.
  - split; [done|]. left. split; [done|]. intros r Hr Hday.
    assert (Hin : r ∈ filter (λ r : MiniApp.SalesRow, MiniApp.day_of_week r = day) view)
      by (apply list_elem_of_filter; done).
    rewrite Hg in Hin. by apply elem_of_nil in Hin.
  - split; [done|]. right. split; [done|]. exists r0.
    assert (Hin : r0 ∈ filter (λ r : MiniApp.SalesRow, MiniApp.day_of_week r = day) view)
      by (rewrite Hg; left).
    apply list_elem_of_filter in Hin. tauto.
Qed.

(** X10.  On a non-empty filtered view of a loaded table the best and
    the slowest day of the Sales Performance page are found; both are
    days on which the view has sales, the best with the greatest and the
    slowest with the smallest revenue among such days.  A day without
    any sale is never the slowest day: its NaN is skipped. *)
Theorem best_and_slowest_day
    (csv : list Row) (date_segment : string) (date_from date_to : Z)
    (stores : list string) (channel_ : string)
    (categories segments payment_methods : list string) :
  let view :=
    MiniApp.apply_filters (MiniApp.load_data csv) date_segment date_from date_to
                          stores channel_ categories segments payment_methods in
  view ≠ [] →
  ∃ (best worst : MiniApp.DaySales) (b w : Q),
    MiniDashboard.best_day view = Some best
    ∧ MiniDashboard.worst_day view = Some worst
    ∧ MiniApp.Revenue best = Finite b
    ∧ MiniApp.Revenue worst = Finite w
    ∧ (∃ r : MiniApp.SalesRow, r ∈ view ∧ MiniApp.day_of_week r = MiniApp.Day best)
    ∧ (∃ r : MiniApp.SalesRow, r ∈ view ∧ MiniApp.day_of_week r = MiniApp.Day worst)
    ∧ ∀ (d : MiniApp.DaySales) (v : Q),
        d ∈ MiniApp.day_sales view → MiniApp.Revenue d = Finite v →
        (w <= v)%Q ∧ (v <= b)%Q.
Proof.
  intros view Hne.
  assert (Hrows : ∀ d, d ∈ MiniApp.day_sales view →
            ∃ day, day ∈ day_order ∧ d = day_sales_row view day).
  { intros d Hd. rewrite day_sales_rows in Hd.
    apply list_elem_of_fmap in Hd as (day & -> & Hday). by exists day. }
  assert (Hfinite : ∀ d, d ∈ MiniApp.day_sales view → MiniApp.Revenue d ≠ NaN →
            (∃ v, MiniApp.Revenue d = Finite v)
            ∧ ∃ r : MiniApp.SalesRow, r ∈ view ∧ MiniApp.day_of_week r = MiniApp.Day d).
  { intros d Hd Hnan. destruct (Hrows d Hd) as (day & _ & ->).
    destruct (day_sales_row_cases view day) as [Hday [[Hrev _]|[Hrev Hex]]]; [done|].
    rewrite Hday. split; [by eexists|done]. }
  assert (Hsome : ∃ d, d ∈ MiniApp.day_sales view ∧ MiniApp.Revenue d ≠ NaN).
  { destruct view as [|r0 rest] eqn:Hview; [done|].
    assert (Hr0 : r0 ∈ view) by (rewrite Hview; left).
    exists (day_sales_row view (MiniApp.day_of_week r0)). rewrite <- Hview. split.
    - rewrite day_sales_rows. apply (list_elem_of_fmap_2 (day_sales_row view)).
      by apply (loaded_day_of_week csv date_segment date_from date_to stores
                  channel_ categories segments payment_methods).
    - destruct (day_sales_row_cases view (MiniApp.day_of_week r0))
        as [_ [[_ Hnone]|[Hrev _]]]; [by destruct (Hnone r0 Hr0)|].
      by rewrite Hrev. }
  destruct Hsome as (d0 & Hd0 & Hd0n).
  assert (Hd0v : MiniApp.Revenue d0 ∈ map MiniApp.Revenue (MiniApp.day_sales view))
    by by apply (list_elem_of_fmap_2 MiniApp.Revenue).
  unfold MiniDashboard.best_day, MiniDashboard.worst_day.
  destruct (float_idxmax (map MiniApp.Revenue (MiniApp.day_sales view)))
    as [i|] eqn:Hi.
  2:{ by destruct Hd0n; apply (float_idxmax_None _ Hi). }
  destruct (float_idxmin (map MiniApp.Revenue (MiniApp.day_sales view)))
    as [j|] eqn:Hj.
  2:{ by destruct Hd0n; apply (float_idxmin_None _ Hj). }
  destruct (float_idxmax_spec _ _ Hi) as (xb & Hxb & Hxbn & Hmax).
  destruct (float_idxmin_spec _ _ Hj) as (xw & Hxw & Hxwn & Hmin).
  apply list_lookup_fmap_Some_1 in Hxb as (best & -> & Hbest).
  apply list_lookup_fmap_Some_1 in Hxw as (worst & -> & Hworst).
  pose proof (list_elem_of_lookup_2 _ _ _ Hbest) as Hbin.
  pose proof (list_elem_of_lookup_2 _ _ _ Hworst) as Hwin.
  destruct (Hfinite best Hbin Hxbn) as [[b Hb] Hbrow].
  destruct (Hfinite worst Hwin Hxwn) as [[w Hw] Hwrow].
  exists best, worst, b, w. simpl.
  split; [done|]. split; [done|]. split; [done|]. split; [done|].
  split; [done|]. split; [done|].
  intros d v Hd Hv.
  assert (Hdv : MiniApp.Revenue d ∈ map MiniApp.Revenue (MiniApp.day_sales view))
    by by apply (list_elem_of_fmap_2 MiniApp.Revenue).
  assert (Hdn : MiniApp.Revenue d ≠ NaN) by by rewrite Hv.
  pose proof (Hmax _ Hdv Hdn) as Hle1. pose proof (Hmin _ Hdv Hdn) as Hle2.
  rewrite Hv, Hb in Hle1. rewrite Hv, Hw in Hle2. simpl in Hle1, Hle2.
  split; by apply Qle_bool_iff.
Qed.

Lemma best_and_slowest_day_witness :
  MiniApp.apply_filters (MiniApp.load_data example_csv) "Daily"
                        738886 738888 [] "All" [] [] [] ≠ []
  ∧ ∃ (best worst : MiniApp.DaySales) (b w : Q),
      MiniDashboard.best_day
        (MiniApp.apply_filters (MiniApp.load_data example_csv) "Daily"
                               738886 738888 [] "All" [] [] []) = Some best
      ∧ MiniDashboard.worst_day
          (MiniApp.apply_filters (MiniApp.load_data example_csv) "Daily"
                                 738886 738888 [] "All" [] [] []) = Some worst
      ∧ MiniApp.Revenue best = Finite b
      ∧ MiniApp.Revenue worst = Finite w.
Proof.
  split; [discriminate|].
  destruct (best_and_slowest_day example_csv "Daily" 738886 738888 [] "All" [] [] [])
    as (best & worst & b & w & H1 & H2 & H3 & H4 & _); [discriminate|].
  by exists best, worst, b, w.
Defined.

(** ** The days together *)

Section PartitionSum.
Context {R : Type}.
Implicit Types (col : R → Q) (df : list R).
Local Open Scope Q_scope.





End PartitionSum.



(** ** Top and bottom rows *)

Section SortedHeads.
Variable sort_values : SortValues.
Hypothesis contract : sort_values_contract sort_values.
Context {T : Type}.
Implicit Types (key : T → Q) (rows : list T).

(** The first [n] rows of a sorted frame: the rows left out come no
    earlier in the order than the rows listed. *)
Lemma head_sort_values key ascending (n : Z) rows :
  0 ≤ n →
  (∀ t u, t ∈ rows → t ∉ head n (sort_values T key ascending rows) →
          u ∈ head n (sort_values T key ascending rows) →
          in_order ascending (key u) (key t))
  ∧ length (head n (sort_values T key ascending rows))
    = (Z.to_nat n `min` length rows)%nat
  ∧ ((length rows ≤ Z.to_nat n)%nat →
     head n (sort_values T key ascending rows) ≡ₚ rows)
  ∧ (∀ t, t ∈ head n (sort_values T key ascending rows) → t ∈ rows).
Proof.
  intros Hn. unfold head. rewrite (proj2 (Z.leb_le 0 n) Hn).
  set (sorted := sort_values T key ascending rows).
  pose proof (sort_values_perm _ contract T key ascending rows) as Hperm.
  pose proof (sort_values_sorted _ contract T key ascending rows) as Hsorted.
  fold sorted in Hperm, Hsorted.
  split; [|split; [|split]].
  - intros t u Ht Hout Hu.
    rewrite <- Hperm, <- (take_drop (Z.to_nat n) sorted) in Ht.
    apply elem_of_app in Ht as [Ht|Ht]; [done|].
    rewrite <- (take_drop (Z.to_nat n) sorted) in Hsorted.
    by apply (StronglySorted_app_1_elem_of _ _ _ u t) in Hsorted.
  - rewrite length_take, (Permutation_length Hperm). done.
  - intros Hlen. rewrite take_ge; [done|].
    rewrite (Permutation_length Hperm). done.
  - intros t Ht. rewrite <- Hperm. by apply (subseteq_take (Z.to_nat n)).
Qed.

End SortedHeads.

(** X12.  Whatever routine sorts, the top ten and the bottom ten
    products are products of the view with their totals, ten or all of
    them if there are fewer; no product left out of the top ten has a
    greater revenue than a listed one, none left out of the bottom ten a
    smaller one; with at most ten products both tables list every
    product. *)
Theorem top_and_bottom_products (sort_values : SortValues)
    (view : list MiniApp.SalesRow) :
  sort_values_contract sort_values →
  let products :=
    MiniApp.totals (λ r : MiniApp.SalesRow, LStr (product_name r)) view in
  (∀ t u, t ∈ products → t ∉ MiniApp.top_products sort_values view →
          u ∈ MiniApp.top_products sort_values view →
          (MiniApp.sum_line_revenue t <= MiniApp.sum_line_revenue u)%Q)
  ∧ (∀ t u, t ∈ products → t ∉ MiniDashboard.bottom_products sort_values view →
            u ∈ MiniDashboard.bottom_products sort_values view →
            (MiniApp.sum_line_revenue u <= MiniApp.sum_line_revenue t)%Q)
  ∧ length (MiniApp.top_products sort_values view) = (10 `min` length products)%nat
  ∧ length (MiniDashboard.bottom_products sort_values view)
    = (10 `min` length products)%nat
  ∧ (∀ t, t ∈ MiniApp.top_products sort_values view
          ∨ t ∈ MiniDashboard.bottom_products sort_values view → t ∈ products)
  ∧ ((length products ≤ 10)%nat →
     MiniApp.top_products sort_values view ≡ₚ products
     ∧ MiniDashboard.bottom_products sort_values view ≡ₚ products).
Proof.
  intros contract products.
  destruct (head_sort_values sort_values contract MiniApp.sum_line_revenue false
              10 products ltac:(lia)) as (Htop & Htoplen & Htopall & Htopin).
  destruct (head_sort_values sort_values contract MiniApp.sum_line_revenue true
              10 products ltac:(lia)) as (Hbot & Hbotlen & Hbotall & Hbotin).
  split; [exact Htop|]. split; [exact Hbot|].
  split; [exact Htoplen|]. split; [exact Hbotlen|].
  split; [intros t [Ht|Ht]; [by apply Htopin|by apply Hbotin]|].
  intros Hlen. split; [by apply Htopall|by apply Hbotall].
Qed.

Lemma top_and_bottom_products_witness :
  sort_values_contract sort_values_stable
  ∧ length (MiniApp.top_products sort_values_stable (MiniApp.load_data example_csv))
    = (10 `min` length (MiniApp.totals (λ r : MiniApp.SalesRow, LStr (product_name r))
                                       (MiniApp.load_data example_csv)))%nat.
Proof.
  split; [apply sort_values_stable_contract|].
  refine (proj1 (proj2 (proj2 (top_and_bottom_products sort_values_stable
            (MiniApp.load_data example_csv) sort_values_stable_contract)))).
Defined.




(** ** The KPI functions of the console scripts *)

Lemma with_line_revenue_twice frame :
  with_line_revenue (with_line_revenue frame) = with_line_revenue frame.
Proof.
  unfold with_line_revenue. simpl. by rewrite insert_insert_eq.
Qed.

Lemma with_line_revenue_settled (h : gmap nat DataFrame) df frame :
  <[df := with_line_revenue (with_line_revenue frame)]>
    (<[df := with_line_revenue frame]> h)
  = <[df := with_line_revenue frame]> h.
Proof. by rewrite with_line_revenue_twice, insert_insert_eq. Qed.

Lemma mini_compute_total_revenue_spec (h : gmap nat DataFrame) df frame :
  h !! df = Some frame →
  MiniAnalysis.compute_total_revenue df h
  = Some (round2 (col_sum id (line_revenue_values (rows frame))),
          <[df := with_line_revenue frame]> h).
Proof.
  intros Hdf.
  unfold MiniAnalysis.compute_total_revenue, mbind, Py_bind, read, setitem,
    getitem, mret, Py_ret.
  rewrite Hdf. simpl. rewrite Hdf. simpl.
  rewrite lookup_insert_eq. simpl. rewrite lookup_insert_eq. simpl.
  reflexivity.
Qed.

Lemma mini_compute_revenue_by_store_spec (h : gmap nat DataFrame) df frame :
  h !! df = Some frame →
  MiniAnalysis.compute_revenue_by_store df h
  = Some (map (λ kv : Label * Q, (kv.1, round2 kv.2))
              (groupby_sum (λ rv : Row * Q, LStr (store_location rv.1)) snd
                           (zip (rows frame) (line_revenue_values (rows frame)))),
          <[df := with_line_revenue frame]> h).
Proof.
  intros Hdf.
  unfold MiniAnalysis.compute_revenue_by_store, mbind, Py_bind, read, setitem,
    getitem, mret, Py_ret.
  rewrite Hdf. simpl. rewrite Hdf. simpl.
  rewrite lookup_insert_eq. simpl. rewrite lookup_insert_eq. simpl.
  reflexivity.
Qed.

Lemma mini_compute_top_n_products_spec sort_values (h : gmap nat DataFrame) df n frame :
  h !! df = Some frame →
  MiniAnalysis.compute_top_n_products sort_values df n h
  = Some (head n (sort_values _ snd false
                    (groupby_sum (λ rv : Row * Q, LStr (product_name rv.1)) snd
                       (zip (rows frame) (line_revenue_values (rows frame))))),
          <[df := with_line_revenue frame]> h).
Proof.
  intros Hdf.
  unfold MiniAnalysis.compute_top_n_products, mbind, Py_bind, read, setitem,
    getitem, mret, Py_ret.
  rewrite Hdf. simpl. rewrite Hdf. simpl.
  rewrite lookup_insert_eq. simpl. rewrite lookup_insert_eq. simpl.
  reflexivity.
Qed.

(** Without a frame at [df] the three functions raise at once. *)
Lemma mini_kpi_functions_raise sort_values (h : gmap nat DataFrame) df n :
  h !! df = None →
  MiniAnalysis.compute_total_revenue df h = None
  ∧ MiniAnalysis.compute_revenue_by_store df h = None
  ∧ MiniAnalysis.compute_top_n_products sort_values df n h = None.
Proof.
  intros Hdf.
  unfold MiniAnalysis.compute_total_revenue, MiniAnalysis.compute_revenue_by_store,
    MiniAnalysis.compute_top_n_products, mbind, Py_bind, read.
  rewrite Hdf. by simpl.
Qed.

(** X14. The three KPI functions of the Mini_Project script have one
    and the same effect on the heap: the frame [df] refers to gets the
    [line_revenue] column computed from its rows, and no other frame
    is touched.  The effect happens once: called again, in any order,
    each function returns what it returned before and leaves the heap
    as it found it. *)
Theorem mini_kpi_functions_settle (sort_values : SortValues)
    (h : gmap nat DataFrame) (df : nat) (frame : DataFrame) (n : Z) :
  h !! df = Some frame →
  let h1 := <[df := with_line_revenue frame]> h in
  (∃ total,
     MiniAnalysis.compute_total_revenue df h = Some (total, h1)
     ∧ MiniAnalysis.compute_total_revenue df h1 = Some (total, h1))
  ∧ (∃ revenue_by_store,
       MiniAnalysis.compute_revenue_by_store df h = Some (revenue_by_store, h1)
       ∧ MiniAnalysis.compute_revenue_by_store df h1 = Some (revenue_by_store, h1))
  ∧ (∃ top_products,
       MiniAnalysis.compute_top_n_products sort_values df n h = Some (top_products, h1)
       ∧ MiniAnalysis.compute_top_n_products sort_values df n h1
         = Some (top_products, h1))
  ∧ (∀ other, other ≠ df → h1 !! other = h !! other)
  ∧ (∃ column, (h1 !! df) ≫= (λ frame', added frame' !! "line_revenue") = Some column
               ∧ length column = length (rows frame)).
Proof.
  intros Hdf h1.
  assert (Hdf1 : h1 !! df = Some (with_line_revenue frame))
    by (subst h1; apply lookup_insert_eq).
  repeat split.
  - eexists. split.
    + by apply mini_compute_total_revenue_spec.
    + rewrite (mini_compute_total_revenue_spec h1 df _ Hdf1).
      subst h1. by rewrite with_line_revenue_settled.
  - eexists. split.
    + by apply mini_compute_revenue_by_store_spec.
    + rewrite (mini_compute_revenue_by_store_spec h1 df _ Hdf1).
      subst h1. by rewrite with_line_revenue_settled.
  - eexists. split.
    + by apply mini_compute_top_n_products_spec.
    + rewrite (mini_compute_top_n_products_spec sort_values h1 df n _ Hdf1).
      subst h1. by rewrite with_line_revenue_settled.
  - intros other Hother. subst h1. by rewrite lookup_insert_ne.
  - exists (line_revenue_values (rows frame)). rewrite Hdf1. simpl. split.
    + apply lookup_insert_eq.
    + unfold line_revenue_values. by rewrite length_map.
Qed.

Lemma mini_kpi_functions_settle_witness :
  ∃ total,
    MiniAnalysis.compute_total_revenue 0 cli_heap
    = Some (total, <[0%nat := with_line_revenue (mkDataFrame example_csv ∅)]> cli_heap)
    ∧ MiniAnalysis.compute_total_revenue 0
        (<[0%nat := with_line_revenue (mkDataFrame example_csv ∅)]> cli_heap)
      = Some (total, <[0%nat := with_line_revenue (mkDataFrame example_csv ∅)]> cli_heap).
Proof.
  exact (proj1 (mini_kpi_functions_settle sort_values_stable cli_heap 0%nat
                  (mkDataFrame example_csv ∅) 5 eq_refl)).
Defined.


Lemma ensure_line_revenue_absent (h : gmap nat DataFrame) df frame :
  h !! df = Some frame →
  added frame !! "line_revenue" = None →
  FinalAnalysis.ensure_line_revenue df h
  = Some (fresh (dom h), <[fresh (dom h) := with_line_revenue frame]> h).
Proof.
  intros Hdf Hcol.
  unfold FinalAnalysis.ensure_line_revenue, mbind, Py_bind, has_column.
  rewrite Hdf. simpl. rewrite Hcol. simpl.
  by rewrite (add_line_revenue_column_spec h df frame Hdf).
Qed.


(** The three KPI functions of the final project on a frame without
    the column: one copy is made, and it gets the column. *)
Lemma final_kpi_functions_absent sort_values (h : gmap nat DataFrame) df frame n :
  h !! df = Some frame →
  added frame !! "line_revenue" = None →
  let h' := <[fresh (dom h) := with_line_revenue frame]> h in
  let table := zip (rows frame) (line_revenue_values (rows frame)) in
  FinalAnalysis.compute_total_revenue df h
  = Some (col_sum id (line_revenue_values (rows frame)), h')
  ∧ FinalAnalysis.compute_revenue_by_store df h
    = Some (groupby_sum (λ rv : Row * Q, LStr (store_id rv.1)) snd table, h')
  ∧ FinalAnalysis.compute_top_n_products sort_values df n h
    = Some (head n (sort_values _ snd false
                      (groupby_sum (λ rv : Row * Q, LStr (product_name rv.1)) snd
                                   table)), h').
Proof.
  intros Hdf Hcol h' table.
  unfold FinalAnalysis.compute_total_revenue, FinalAnalysis.compute_revenue_by_store,
    FinalAnalysis.compute_top_n_products.
  repeat split; unfold mbind at 1, Py_bind;
    rewrite (ensure_line_revenue_absent h df frame Hdf Hcol);
    unfold mbind, Py_bind, read, getitem, mret, Py_ret;
    rewrite ?lookup_insert_eq; simpl; rewrite ?lookup_insert_eq; simpl;
    rewrite ?lookup_insert_eq; simpl; rewrite ?lookup_insert_eq; reflexivity.
Qed.


Lemma final_kpi_functions_raise sort_values (h : gmap nat DataFrame) df n :
  h !! df = None →
  FinalAnalysis.compute_total_revenue df h = None
  ∧ FinalAnalysis.compute_revenue_by_store df h = None
  ∧ FinalAnalysis.compute_top_n_products sort_values df n h = None.
Proof.
  intros Hdf.
  unfold FinalAnalysis.compute_total_revenue, FinalAnalysis.compute_revenue_by_store,
    FinalAnalysis.compute_top_n_products, FinalAnalysis.ensure_line_revenue,
    mbind, Py_bind, has_column.
  rewrite Hdf. by simpl.
Qed.

(** X15. On the frame read from the CSV file, which has no
    [line_revenue] column, the two scripts agree on the figures: the
    total of the Mini_Project script is the total of the final project
    rounded to two decimals, and the top-n tables are the same for every
    n and every sorting routine.  They differ in where the column goes:
    the final project leaves the frame as it was. *)
Theorem mini_and_final_scripts_agree (sort_values : SortValues)
    (h : gmap nat DataFrame) (df : nat) (frame : DataFrame) (n : Z) :
  h !! df = Some frame →
  added frame !! "line_revenue" = None →
  ∃ total top_products h_mini h_final,
    FinalAnalysis.compute_total_revenue df h = Some (total, h_final)
    ∧ MiniAnalysis.compute_total_revenue df h = Some (round2 total, h_mini)
    ∧ FinalAnalysis.compute_top_n_products sort_values df n h
      = Some (top_products, h_final)
    ∧ MiniAnalysis.compute_top_n_products sort_values df n h
      = Some (top_products, h_mini)
    ∧ h_final !! df = Some frame
    ∧ h_mini !! df = Some (with_line_revenue frame).
Proof.
  intros Hdf Hcol.
  destruct (final_kpi_functions_absent sort_values h df frame n Hdf Hcol)
    as (Htotal & _ & Htop).
  do 4 eexists. split; [exact Htotal|]. split.
  { by apply mini_compute_total_revenue_spec. }
  split; [exact Htop|]. split.
  { by apply mini_compute_top_n_products_spec. }
  split.
  - rewrite lookup_insert_ne; [done|]. by apply (fresh_ref_other h df frame).
  - apply lookup_insert_eq.
Qed.

Lemma mini_and_final_scripts_agree_witness :
  ∃ total top_products h_mini h_final,
    FinalAnalysis.compute_total_revenue 0 cli_heap = Some (total, h_final)
    ∧ MiniAnalysis.compute_total_revenue 0 cli_heap = Some (round2 total, h_mini)
    ∧ FinalAnalysis.compute_top_n_products sort_values_stable 0 5 cli_heap
      = Some (top_products, h_final)
    ∧ MiniAnalysis.compute_top_n_products sort_values_stable 0 5 cli_heap
      = Some (top_products, h_mini)
    ∧ h_final !! 0%nat = Some (mkDataFrame example_csv ∅)
    ∧ h_mini !! 0%nat = Some (with_line_revenue (mkDataFrame example_csv ∅)).
Proof.
  exact (mini_and_final_scripts_agree sort_values_stable cli_heap 0%nat
           (mkDataFrame example_csv ∅) 5 eq_refl eq_refl).
Defined.






(** ** The menus *)

Section Menus.
Variable sort_values : SortValues.

Lemma final_on_choice_leave choice df (h : gmap nat DataFrame) printed leave h1 :
  FinalScript.on_choice sort_values choice df h = (printed, leave, h1) →
  leave = (choice =? "4")%string.
Proof.
  unfold FinalScript.on_choice.
  destruct (String.eqb_spec choice "1") as [->|H1].
  { destruct (FinalAnalysis.compute_total_revenue df h) as [[? ?]|];
      by intros [= <- <- <-]. }
  destruct (String.eqb_spec choice "2") as [->|H2].
  { destruct (FinalAnalysis.compute_revenue_by_store df h) as [[? ?]|];
      by intros [= <- <- <-]. }
  destruct (String.eqb_spec choice "3") as [->|H3].
  { destruct (FinalAnalysis.compute_top_n_products sort_values df 5 h) as [[? ?]|];
      by intros [= <- <- <-]. }
  destruct (String.eqb_spec choice "4") as [->|H4]; by intros [= <- <- <-].
Qed.

Lemma final_on_choice_keeps_frames choice df (h : gmap nat DataFrame) printed leave h1 :
  FinalScript.on_choice sort_values choice df h = (printed, leave, h1) →
  ∀ l frame, h !! l = Some frame → h1 !! l = Some frame.
Proof.
  unfold FinalScript.on_choice.
  destruct (String.eqb_spec choice "1") as [->|H1].
  { destruct (FinalAnalysis.compute_total_revenue df h) as [[? ?]|] eqn:Hcall;
      intros [= <- <- <-]; [|done].
    by apply (final_compute_total_revenue_keeps_frames df h _ _ Hcall). }
  destruct (String.eqb_spec choice "2") as [->|H2].
  { destruct (FinalAnalysis.compute_revenue_by_store df h) as [[? ?]|] eqn:Hcall;
      intros [= <- <- <-]; [|done].
    by apply (final_compute_revenue_by_store_keeps_frames df h _ _ Hcall). }
  destruct (String.eqb_spec choice "3") as [->|H3].
  { destruct (FinalAnalysis.compute_top_n_products sort_values df 5 h)
      as [[? ?]|] eqn:Hcall; intros [= <- <- <-]; [|done].
    by apply (final_compute_top_n_products_keeps_frames sort_values df 5 h _ _ Hcall). }
  destruct (String.eqb_spec choice "4") as [->|H4]; by intros [= <- <- <-].
Qed.


End Menus.

(** X17. Whatever is typed at the menu of the final project's script,
    no frame of the heap is altered by the session.  The call returns
    if a line that strips to ["4"] comes first among the events that
    end the loop, raises [KeyboardInterrupt] if Ctrl-C does, and raises
    [EOFError] if the input ends before either; one menu is printed for
    each prompt, and what follows the ending event is not read. *)
Theorem final_cli_menu_keeps_frames (strip : string → string)
    (sort_values : SortValues) (keyboard : list Keyboard) (df : nat)
    (h : gmap nat DataFrame) :
  let '(printed, ending, h') := FinalScript.cli_menu strip sort_values keyboard df h in
  (∀ l frame, h !! l = Some frame → h' !! l = Some frame)
  ∧ ending = match list_find (λ k, ends_menu strip k = true) keyboard with
             | Some (_, Typed _) => Returned
             | Some (_, CtrlC) => RaisedKeyboardInterrupt
             | None => RaisedEOFError
             end
  ∧ length (filter (λ p, is_menu p = true) printed)
    = match list_find (λ k, ends_menu strip k = true) keyboard with
      | Some (i, _) => S i
      | None => S (length keyboard)
      end.
Proof.
  revert h. induction keyboard as [|k keyboard IH]; intros h; simpl.
  { repeat split; done. }
  destruct k as [line|]; [|by repeat split].
  destruct (FinalScript.on_choice sort_values (strip line) df h)
    as [[printed leave] h1] eqn:Hchoice.
  pose proof (final_on_choice_leave _ _ _ _ _ _ _ Hchoice) as Hleave.
  pose proof (final_on_choice_keeps_frames _ _ _ _ _ _ _ Hchoice) as Hkeeps.
  assert (Hmenus : filter (λ p, is_menu p = true) printed = []).
  { revert Hchoice. unfold FinalScript.on_choice.
    repeat match goal with
           | |- context [String.eqb (strip line) ?s] =>
               destruct (String.eqb (strip line) s)
           | |- context [match ?call with Some _ => _ | None => _ end] =>
               destruct call as [[? ?]|]
           end; by intros [= <- <- <-]. }
  destruct (strip line =? "4")%string eqn:H4; subst leave.
  - rewrite decide_True by (simpl; by rewrite H4). simpl. by rewrite Hmenus.
  - rewrite decide_False by (simpl; by rewrite H4).
    specialize (IH h1).
    destruct (FinalScript.cli_menu strip sort_values keyboard df h1)
      as [[rest ending] h2].
    destruct IH as (IHkeeps & IHending & IHmenus).
    split; [|split].
    + intros l frame Hl. by apply IHkeeps, Hkeeps.
    + rewrite IHending.
      destruct (list_find (λ k, ends_menu strip k = true) keyboard)
        as [[i [?|]]|]; by simpl.
    + simpl. rewrite filter_app, Hmenus. simpl. rewrite IHmenus.
      destruct (list_find (λ k, ends_menu strip k = true) keyboard)
        as [[i ?]|]; by simpl.
Qed.





Lemma mini_on_choice_leave sort_values choice df (h : gmap nat DataFrame)
    printed leave h1 :
  MiniScript.on_choice sort_values choice df h = (printed, leave, h1) →
  leave = (choice =? "4")%string.
Proof.
  unfold MiniScript.on_choice.
  destruct (String.eqb_spec choice "1") as [->|H1].
  { destruct (MiniAnalysis.compute_total_revenue df h) as [[? ?]|];
      by intros [= <- <- <-]. }
  destruct (String.eqb_spec choice "2") as [->|H2].
  { destruct (MiniAnalysis.compute_revenue_by_store df h) as [[? ?]|];
      by intros [= <- <- <-]. }
  destruct (String.eqb_spec choice "3") as [->|H3].
  { destruct (MiniAnalysis.compute_top_n_products sort_values df 5 h) as [[? ?]|];
      by intros [= <- <- <-]. }
  destruct (String.eqb_spec choice "4") as [->|H4]; by intros [= <- <- <-].
Qed.

(** The heap after a choice: a KPI choice assigns the column, any
    other choice does nothing. *)
Lemma mini_on_choice_heap sort_values choice df (h : gmap nat DataFrame) frame
    printed leave h1 :
  h !! df = Some frame →
  MiniScript.on_choice sort_values choice df h = (printed, leave, h1) →
  h1 = if kpi_choice choice then <[df := with_line_revenue frame]> h else h.
Proof.
  intros Hdf. unfold MiniScript.on_choice, kpi_choice.
  rewrite (mini_compute_total_revenue_spec h df frame Hdf),
    (mini_compute_revenue_by_store_spec h df frame Hdf),
    (mini_compute_top_n_products_spec sort_values h df 5 frame Hdf).
  repeat match goal with
         | |- context [String.eqb choice ?s] => destruct (String.eqb choice s)
         end; by intros [= <- <- <-].
Qed.

(** X19. When the input ends before a line that strips to ["4"] and
    before Ctrl-C, the two menus part: [cli_menu] of the final project
    raises [EOFError], and [run_cli_menu] of the Mini_Project script,
    whose [input()] stands inside the [try], catches the error and
    shows the menu again, for ever: after no number of passes has the
    loop ended. *)
Theorem mini_menu_loops_at_end_of_input (strip : string → string)
    (sort_values : SortValues) (keyboard : list Keyboard) (df : nat)
    (h : gmap nat DataFrame) :
  (∀ k, k ∈ keyboard → ends_menu strip k = false) →
  (∀ rounds, MiniScript.run_cli_menu strip sort_values rounds keyboard df h = None)
  ∧ (FinalScript.cli_menu strip sort_values keyboard df h).1.2 = RaisedEOFError.
Proof.
  intros Hnone. split.
  - intros rounds. revert keyboard h Hnone.
    induction rounds as [|rounds IH]; intros keyboard h Hnone; [done|].
    simpl. destruct keyboard as [|[line|] keyboard].
    + by rewrite (IH [] h).
    + destruct (MiniScript.on_choice sort_values (strip line) df h)
        as [[printed leave] h1] eqn:Hchoice.
      rewrite (mini_on_choice_leave _ _ _ _ _ _ _ Hchoice).
      assert (H4 : ends_menu strip (Typed line) = false) by (apply Hnone; left).
      simpl in H4. rewrite H4.
      rewrite (IH keyboard h1); [done|].
      intros k Hk. apply Hnone. by right.
    + assert (Hc : ends_menu strip CtrlC = false) by (apply Hnone; left).
      done.
  - revert h. induction keyboard as [|[line|] keyboard IH]; intros h; simpl; [done| |].
    + destruct (FinalScript.on_choice sort_values (strip line) df h)
        as [[printed leave] h1] eqn:Hchoice.
      rewrite (final_on_choice_leave _ _ _ _ _ _ _ Hchoice).
      assert (H4 : ends_menu strip (Typed line) = false) by (apply Hnone; left).
      simpl in H4. rewrite H4.
      assert (Hrest : ∀ k, k ∈ keyboard → ends_menu strip k = false)
        by (intros k Hk; apply Hnone; by right).
      specialize (IH Hrest h1).
      by destruct (FinalScript.cli_menu strip sort_values keyboard df h1)
        as [[rest ending] h2].
    + assert (Hc : ends_menu strip CtrlC = false) by (apply Hnone; left).
      done.
Qed.

Lemma mini_menu_loops_at_end_of_input_witness :
  (∀ rounds,
     MiniScript.run_cli_menu id sort_values_stable rounds [Typed "1"; Typed "x"] 0
                             cli_heap = None)
  ∧ (FinalScript.cli_menu id sort_values_stable [Typed "1"; Typed "x"] 0 cli_heap).1.2
    = RaisedEOFError.
Proof.
  apply (mini_menu_loops_at_end_of_input id sort_values_stable
           [Typed "1"; Typed "x"] 0%nat cli_heap).
  intros k Hk. apply elem_of_cons in Hk as [->|Hk]; [reflexivity|].
  apply elem_of_cons in Hk as [->|Hk]; [reflexivity|].
  by apply elem_of_nil in Hk.
Defined.

(** X20. A session of the Mini_Project menu ends at the first line
    that strips to ["4"] or the first Ctrl-C: with one pass of the loop
    for each event up to that one the call returns, and nothing after
    that event is read.  The frame the menu was given is altered by the
    session if and only if a KPI was asked for before the end, and then
    it has got the [line_revenue] column; every other frame is
    untouched. *)
Theorem mini_menu_session (strip : string → string) (sort_values : SortValues)
    (before : list Keyboard) (last : Keyboard) (df : nat)
    (h : gmap nat DataFrame) (frame : DataFrame) :
  h !! df = Some frame →
  (∀ k, k ∈ before → ends_menu strip k = false) →
  ends_menu strip last = true →
  ∃ printed,
    ∀ after rounds,
      (length before < rounds)%nat →
      MiniScript.run_cli_menu strip sort_values rounds (before ++ last :: after) df h
      = Some (printed,
              if existsb (asks_kpi strip) before
              then <[df := with_line_revenue frame]> h
              else h).
Proof.
  intros Hdf Hbefore Hlast. revert h frame Hdf Hbefore.
  induction before as [|k before IH]; intros h frame Hdf Hbefore.
  - destruct last as [line|].
    + destruct (MiniScript.on_choice sort_values (strip line) df h)
        as [[printed leave] h1] eqn:Hchoice.
      exists (Menu :: printed). intros after [|rounds] Hrounds; [simpl in *; lia|].
      simpl. rewrite Hchoice.
      rewrite (mini_on_choice_leave _ _ _ _ _ _ _ Hchoice).
      simpl in Hlast. rewrite Hlast.
      rewrite (mini_on_choice_heap _ _ _ _ _ _ _ _ Hdf Hchoice).
      unfold kpi_choice. apply String.eqb_eq in Hlast. by rewrite Hlast.
    + exists [Menu; Interrupted].
      intros after [|rounds] Hrounds; [simpl in *; lia|]. done.
  - assert (Hk : ends_menu strip k = false) by (apply Hbefore; left).
    assert (Hrest : ∀ k', k' ∈ before → ends_menu strip k' = false)
      by (intros k' Hk'; apply Hbefore; by right).
    destruct k as [line|]; [|done].
    destruct (MiniScript.on_choice sort_values (strip line) df h)
      as [[printed leave] h1] eqn:Hchoice.
    pose proof (mini_on_choice_leave _ _ _ _ _ _ _ Hchoice) as Hleave.
    pose proof (mini_on_choice_heap _ _ _ _ _ _ _ _ Hdf Hchoice) as Hh1.
    simpl in Hk. rewrite Hk in Hleave. subst leave.
    destruct (kpi_choice (strip line)) eqn:Hkpi.
    + assert (Hdf1 : h1 !! df = Some (with_line_revenue frame))
        by (subst h1; apply lookup_insert_eq).
      destruct (IH h1 (with_line_revenue frame) Hdf1 Hrest) as [rest Hrun].
      exists ((Menu :: printed) ++ rest)%list.
      intros after [|rounds] Hrounds; [simpl in *; lia|].
      simpl. rewrite Hchoice.
      rewrite (Hrun after rounds) by (simpl in Hrounds; lia).
      rewrite Hkpi. simpl. subst h1. rewrite with_line_revenue_settled.
      by destruct (existsb (asks_kpi strip) before).
    + subst h1.
      destruct (IH h frame Hdf Hrest) as [rest Hrun].
      exists ((Menu :: printed) ++ rest)%list.
      intros after [|rounds] Hrounds; [simpl in *; lia|].
      simpl. rewrite Hchoice.
      rewrite (Hrun after rounds) by (simpl in Hrounds; lia).
      by rewrite Hkpi.
Qed.

Lemma mini_menu_session_witness :
  ∃ printed,
    ∀ after rounds,
      (length [Typed "9"; Typed "2"] < rounds)%nat →
      MiniScript.run_cli_menu id sort_values_stable rounds
        ([Typed "9"; Typed "2"] ++ Typed "4" :: after) 0 cli_heap
      = Some (printed,
              if existsb (asks_kpi id) [Typed "9"; Typed "2"]
              then <[0%nat := with_line_revenue (mkDataFrame example_csv ∅)]> cli_heap
              else cli_heap).
Proof.
  apply (mini_menu_session id sort_values_stable [Typed "9"; Typed "2"] (Typed "4")
           0%nat cli_heap (mkDataFrame example_csv ∅) eq_refl); [|reflexivity].
  intros k Hk. apply elem_of_cons in Hk as [->|Hk]; [reflexivity|].
  apply elem_of_cons in Hk as [->|Hk]; [reflexivity|].
  by apply elem_of_nil in Hk.
Defined.


(** ** Key metrics of the sales dashboards *)


(** ** Collections of the console scripts *)

Section Collections.
Context {T : Type} `{EqDecision T}.

Lemma elem_of_drop_duplicates (l : list T) (x : T) :
  x ∈ drop_duplicates l ↔ x ∈ l.
Proof.
  induction l as [|y l IH]; simpl; [done|].
  rewrite !elem_of_cons, list_elem_of_filter, IH.
  destruct (decide (x = y)); naive_solver.
Qed.

Lemma NoDup_drop_duplicates (l : list T) : NoDup (drop_duplicates l).
Proof.
  induction l as [|y l IH]; simpl; [constructor|].
  constructor.
  - rewrite list_elem_of_filter. naive_solver.
  - by apply NoDup_filter.
Qed.
End Collections.

Lemma to_dict_snoc series k v :
  to_dict (series ++ [(k, v)]) = <[k := v]> (to_dict series).
Proof. unfold to_dict. by rewrite foldl_app. Qed.

(** An entry of the dictionary is a pair of the series, and every index
    label has an entry. *)
Lemma to_dict_lookup series k v :
  to_dict series !! k = Some v → (k, v) ∈ series.
Proof.
  induction series as [|[k' v'] series IH] using rev_ind; [done|].
  rewrite to_dict_snoc, elem_of_app, list_elem_of_singleton.
  destruct (decide (k = k')) as [->|Hne].
  - rewrite lookup_insert_eq. intros [= ->]. by right.
  - rewrite lookup_insert_ne by done. intros Hl. left. by apply IH.
Qed.

Lemma to_dict_is_Some series k v :
  (k, v) ∈ series → is_Some (to_dict series !! k).
Proof.
  induction series as [|[k' v'] series IH] using rev_ind.
  - by intros ?%elem_of_nil.
  - rewrite to_dict_snoc, elem_of_app, list_elem_of_singleton.
    destruct (decide (k = k')) as [->|Hne].
    + rewrite lookup_insert_eq. by eexists.
    + rewrite lookup_insert_ne by done. intros [Hin|[= ? ?]]; [by apply IH|done].
Qed.

(** The pair written last for a key is its entry. *)
Lemma to_dict_last series k v later :
  (∀ v', (k, v') ∉ later) →
  to_dict (series ++ (k, v) :: later) !! k = Some v.
Proof.
  induction later as [|[k' v'] later IH] using rev_ind; intros Hlater.
  - by rewrite to_dict_snoc, lookup_insert_eq.
  - replace (series ++ (k, v) :: later ++ [(k', v')])%list
      with ((series ++ (k, v) :: later) ++ [(k', v')])%list
      by (by rewrite <- app_assoc).
    rewrite to_dict_snoc.
    assert (Hne : k' ≠ k).
    { intros ->. apply (Hlater v'). rewrite elem_of_app, list_elem_of_singleton.
      by right. }
    rewrite lookup_insert_ne by done. apply IH.
    intros v'' Hin. apply (Hlater v''). rewrite elem_of_app. by left.
Qed.

(** X22. The store mapping both console scripts print: every entry
    pairs a store id with a location some row gives it, and every store
    id of the table has an entry.  When each store id has one location
    in the table, the mapping sends the store id of every row to the
    location of that row. *)
Theorem store_mapping_of_consistent_table (df : list Row) :
  (∀ r r', r ∈ df → r' ∈ df → store_id r = store_id r' →
           store_location r = store_location r') →
  (∀ r, r ∈ df → store_mapping df !! store_id r = Some (store_location r))
  ∧ (∀ k v, store_mapping df !! k = Some v →
            ∃ r, r ∈ df ∧ store_id r = k ∧ store_location r = v).
Proof.
  intros Hone.
  assert (Hentry : ∀ k v, store_mapping df !! k = Some v →
                          ∃ r, r ∈ df ∧ store_id r = k ∧ store_location r = v).
  { intros k v Hl. apply to_dict_lookup in Hl.
    apply (proj1 (elem_of_drop_duplicates _ _)) in Hl.
    apply list_elem_of_fmap in Hl as (r & [= -> ->] & Hr). by exists r. }
  split; [|exact Hentry].
  intros r Hr.
  assert (Hin : (store_id r, store_location r)
                ∈ drop_duplicates (map (λ r, (store_id r, store_location r)) df)).
  { apply elem_of_drop_duplicates, list_elem_of_fmap. by exists r. }
  destruct (to_dict_is_Some _ _ _ Hin) as [v Hv].
  fold (store_mapping df) in Hv. rewrite Hv. f_equal.
  destruct (Hentry _ _ Hv) as (r' & Hr' & Hid & <-).
  by apply Hone.
Qed.

Lemma store_mapping_of_consistent_table_witness :
  (∀ r, r ∈ example_csv →
        store_mapping example_csv !! store_id r = Some (store_location r))
  ∧ (∀ k v, store_mapping example_csv !! k = Some v →
            ∃ r, r ∈ example_csv ∧ store_id r = k ∧ store_location r = v).
Proof.
  apply (store_mapping_of_consistent_table example_csv).
  intros r r' Hr Hr'.
  repeat (apply elem_of_cons in Hr as [->|Hr]);
    repeat (apply elem_of_cons in Hr' as [->|Hr']);
    try (by apply elem_of_nil in Hr); try (by apply elem_of_nil in Hr');
    simpl; intros Hid; done.
Defined.

(** When the table gives a store two locations, the mapping holds the
    location of the later of the distinct pairs, which need not be the
    location of the last row of that store. *)
Lemma store_mapping_later_pair_wins :
  store_mapping [ sample_row "T1" 738886 "S1" "Rice" 1 1 0 "Online";
                  mkRow "T2" "T2" 738886 "S1" "Annex" "C001" "Regular" "P001"
                        "Grocery" "Rice" 1 1 "Cash" 0 "Online";
                  sample_row "T3" 738886 "S1" "Rice" 1 1 0 "Online" ]
  !! "S1" = Some "Annex".
Proof. by vm_compute. Qed.

(** The counting loop of [demonstrate_data_structures] from any start. *)
Lemma channel_loop_from (df : list Row) (online instore : nat) :
  foldl (λ (counts : nat * nat) (r : Row),
           let '(online_count, instore_count) := counts in
           if (channel r =? "Online")%string then (S online_count, instore_count)
           else if (channel r =? "In-store")%string then (online_count, S instore_count)
           else (online_count, instore_count))
        (online, instore) df
  = ((online + length (filter (λ r, channel r = "Online") df))%nat,
     (instore + length (filter (λ r, channel r = "In-store") df))%nat).
Proof.
  revert online instore. induction df as [|r df IH]; intros online instore; simpl.
  { f_equal; lia. }
  destruct (String.eqb_spec (channel r) "Online") as [Hon|Hon].
  - rewrite IH. rewrite filter_cons_True by done.
    rewrite filter_cons_False by (rewrite Hon; done). simpl. f_equal; lia.
  - destruct (String.eqb_spec (channel r) "In-store") as [Hin|Hin].
    + rewrite IH. rewrite filter_cons_False by done.
      rewrite filter_cons_True by done. simpl. f_equal; lia.
    + rewrite IH. by rewrite !filter_cons_False by done.
Qed.

Lemma two_filters_length {A : Type} (P Q : A → Prop)
    `{!∀ x, Decision (P x)} `{!∀ x, Decision (Q x)} (l : list A) :
  (∀ x, P x → Q x → False) →
  (length (filter P l) + length (filter Q l) ≤ length l)%nat
  ∧ ((length (filter P l) + length (filter Q l) = length l)%nat
     ↔ ∀ x, x ∈ l → P x ∨ Q x).
Proof.
  intros Hdisjoint. induction l as [|x l [IHle IHeq]]; simpl.
  { split; [lia|]. split; [|done]. by intros _ x ?%elem_of_nil. }
  destruct (decide (P x)) as [HP|HP]; destruct (decide (Q x)) as [HQ|HQ].
  - by destruct (Hdisjoint x).
  - rewrite filter_cons_True, filter_cons_False by done. simpl.
    split; [lia|]. split.
    + intros Heq y [->|Hy]%elem_of_cons; [by left|]. apply IHeq; [lia|done].
    + intros Hall. f_equal. apply IHeq. intros y Hy. apply Hall. by right.
  - rewrite filter_cons_False, filter_cons_True by done. simpl.
    split; [lia|]. split.
    + intros Heq y [->|Hy]%elem_of_cons; [by right|]. apply IHeq; [lia|done].
    + intros Hall. rewrite Nat.add_succ_r. f_equal. apply IHeq.
      intros y Hy. apply Hall. by right.
  - rewrite !filter_cons_False by done.
    split; [lia|]. split; [lia|].
    intros Hall. destruct (Hall x); [left|done|done].
Qed.

(** X23. The counting loop of [demonstrate_data_structures] counts the
    rows whose channel is exactly ["Online"] and those whose channel is
    exactly ["In-store"].  The two counts together never exceed the
    number of rows, and they reach it exactly when no row has another
    channel. *)
Theorem channel_loop_counts (df : list Row) :
  let '(online_count, instore_count) := MiniScript.channel_loop df in
  online_count = length (filter (λ r, channel r = "Online") df)
  ∧ instore_count = length (filter (λ r, channel r = "In-store") df)
  ∧ (online_count + instore_count ≤ length df)%nat
  ∧ ((online_count + instore_count = length df)%nat
     ↔ ∀ r, r ∈ df → channel r = "Online" ∨ channel r = "In-store").
Proof.
  unfold MiniScript.channel_loop. rewrite channel_loop_from. simpl.
  split; [done|]. split; [done|].
  apply two_filters_length. intros r Hon Hin. by rewrite Hon in Hin.
Qed.


(** ** Counting channels with the csv module *)

Lemma count_rows_lookup strip reader (counts : gmap string nat) k :
  FinalScript.count_rows strip reader counts !! k
  = (λ n, (n + length (filter (λ cell, strip cell = k)
                              (FinalScript.cells_read reader)))%nat)
      <$> counts !! k.
Proof.
  revert counts. induction reader as [|row reader IH]; intros counts; simpl.
  { destruct (counts !! k); simpl; [f_equal; lia|done]. }
  destruct (FinalScript.get_channel row) as [cell|]; simpl.
  2: { destruct (counts !! k); simpl; [f_equal; lia|done]. }
  rewrite IH.
  destruct (decide (strip cell = k)) as [<-|Hne].
  - rewrite filter_cons_True by done.
    destruct (counts !! strip cell) as [count|] eqn:Hcount.
    + rewrite lookup_insert_eq. simpl. f_equal. lia.
    + by rewrite Hcount.
  - rewrite filter_cons_False by done.
    destruct (counts !! strip cell) as [count|] eqn:Hcount; [|done].
    by rewrite lookup_insert_ne.
Qed.

(** The entry of a key in the dictionary returned: the keys are the two
    of the start, and a count is the number of cells read that strip to
    the key. *)
Lemma manual_channel_counts_lookup (strip : string → string)
    (file : option (list FinalScript.DictRow)) (k : string) :
  FinalScript.manual_channel_counts_with_csv strip file !! k
  = if decide (k = "Online" ∨ k = "In-store")
    then Some (length (filter (λ cell, strip cell = k)
                              (match file with
                               | Some reader => FinalScript.cells_read reader
                               | None => []
                               end)))
    else None.
Proof.
  assert (Hinit : ({[ "Online" := 0%nat; "In-store" := 0%nat ]} : gmap string nat) !! k
             = if decide (k = "Online" ∨ k = "In-store") then Some 0%nat else None).
  { destruct (decide (k = "Online")) as [->|Hon]; [done|].
    rewrite lookup_insert_ne by done.
    destruct (decide (k = "In-store")) as [->|Hin].
    - by rewrite lookup_singleton_eq.
    - rewrite lookup_singleton_ne by done.
      rewrite decide_False; [done|]. by intros [?|?]. }
  unfold FinalScript.manual_channel_counts_with_csv.
  destruct file as [reader|].
  - rewrite count_rows_lookup, Hinit. by destruct (decide _).
  - rewrite Hinit. by destruct (decide _).
Qed.

(** X24. [manual_channel_counts_with_csv] returns a dictionary with the
    two keys ["Online"] and ["In-store"] and no other, whatever the file
    holds.  Both counts are zero when the file is missing; otherwise
    each is the number of channel cells that strip to the key, among
    the rows before the first one that is too short to have a channel
    cell: at such a row the loop ends with the counts made so far. *)
Theorem manual_channel_counts (strip : string → string)
    (file : option (list FinalScript.DictRow)) :
  let counts := FinalScript.manual_channel_counts_with_csv strip file in
  let cells := match file with
               | Some reader => FinalScript.cells_read reader
               | None => []
               end in
  (∀ k, is_Some (counts !! k) ↔ k = "Online" ∨ k = "In-store")
  ∧ counts !! "Online"
    = Some (length (filter (λ cell, strip cell = "Online") cells))
  ∧ counts !! "In-store"
    = Some (length (filter (λ cell, strip cell = "In-store") cells)).
Proof.
  intros counts cells. subst counts cells. split; [|split].
  - intros k. rewrite manual_channel_counts_lookup.
    destruct (decide (k = "Online" ∨ k = "In-store")) as [Hk|Hk].
    + split; [done|]. intros _. by eexists.
    + split; [by intros [? ?]|done].
  - by rewrite manual_channel_counts_lookup.
  - by rewrite manual_channel_counts_lookup.
Qed.

Lemma cells_read_complete reader (df : list Row) :
  Forall2 (λ (row : FinalScript.DictRow) r, row !! "channel" = Some (Some (channel r)))
          reader df →
  FinalScript.cells_read reader = map channel df.
Proof.
  induction 1 as [|row r reader df Hrow _ IH]; simpl; [done|].
  unfold FinalScript.get_channel. rewrite Hrow. simpl. by rewrite IH.
Qed.

(** X25. The two ways of counting channels agree on a file whose
    channel cells carry no surrounding whitespace: when the rows of the
    csv reader hold the channel cells of the table pandas has read, and
    stripping leaves each of them as it is, the dictionary of
    [manual_channel_counts_with_csv] holds the two counts of the loop
    of [demonstrate_data_structures]. *)
Theorem channel_counts_agree (strip : string → string)
    (reader : list FinalScript.DictRow) (df : list Row) :
  Forall2 (λ (row : FinalScript.DictRow) r, row !! "channel" = Some (Some (channel r)))
          reader df →
  (∀ r, r ∈ df → strip (channel r) = channel r) →
  let counts := FinalScript.manual_channel_counts_with_csv strip (Some reader) in
  counts !! "Online" = Some (MiniScript.channel_loop df).1
  ∧ counts !! "In-store" = Some (MiniScript.channel_loop df).2.
Proof.
  intros Hrows Hstrip counts.
  subst counts. rewrite !manual_channel_counts_lookup. simpl.
  rewrite (cells_read_complete reader df Hrows).
  unfold MiniScript.channel_loop. rewrite channel_loop_from. simpl.
  assert (Hcount : ∀ k,
             length (filter (λ cell, strip cell = k) (map channel df))
             = length (filter (λ r, channel r = k) df)).
  { intros k. clear Hrows. induction df as [|r df IH]; [done|]. simpl.
    assert (Hr : strip (channel r) = channel r) by (apply Hstrip; left).
    assert (Hrest : ∀ r', r' ∈ df → strip (channel r') = channel r')
      by (intros r' Hr'; apply Hstrip; by right).
    destruct (decide (channel r = k)) as [Hk|Hk].
    - rewrite !filter_cons_True by congruence. simpl. by rewrite IH.
    - rewrite !filter_cons_False by congruence. by apply IH. }
  by rewrite !Hcount.
Qed.

Lemma channel_counts_agree_witness :
  let reader : list FinalScript.DictRow :=
    map (λ r, {[ "channel" := Some (channel r) ]}) example_csv in
  FinalScript.manual_channel_counts_with_csv id (Some reader) !! "Online"
  = Some (MiniScript.channel_loop example_csv).1
  ∧ FinalScript.manual_channel_counts_with_csv id (Some reader) !! "In-store"
    = Some (MiniScript.channel_loop example_csv).2.
Proof.
  apply (channel_counts_agree id
           (map (λ r, {[ "channel" := Some (channel r) ]}) example_csv) example_csv).
  - repeat constructor.
  - reflexivity.
Defined.

(** A short row ends the count: the row after it is not counted. *)
Lemma short_row_ends_count :
  FinalScript.manual_channel_counts_with_csv id
    (Some [ {[ "channel" := Some "Online" ]};
            {[ "channel" := None ]};
            {[ "channel" := Some "Online" ]} ])
  !! "Online" = Some 1%nat.
Proof. by vm_compute. Qed.

(** ** [filter_data] of the final project's script *)

Lemma map_filter_base {A B : Type} (f : A → B) (P : B → Prop)
    `{!∀ y, Decision (P y)} (l : list A) :
  map f (filter (λ x, P (f x)) l) = filter P (map f l).
Proof.
  induction l as [|x l IH]; simpl; [done|].
  destruct (decide (P (f x))) as [HP|HP].
  - rewrite !filter_cons_True by done. simpl. by rewrite IH.
  - by rewrite !filter_cons_False by done.
Qed.

Lemma script_filter_data_filter (df : list Row) start_date end_date store channel_ :
  FinalScript.filter_data df start_date end_date store channel_
  = filter (FinalScript.selected start_date end_date store channel_) df.
Proof.
  unfold FinalScript.filter_data. cbv zeta.
  assert (Hstep : ∀ (A : Type) (criterion : option A) (P : A → Row → Prop)
                    `{!∀ c r, Decision (P c r)} (l : list Row),
             match criterion with
             | Some c => filter (P c) l
             | None => l
             end
             = filter (λ r, FinalScript.meets criterion (λ c, P c r)) l).
  { intros A [c|] P HP l; simpl; [done|]. symmetry. by apply filter_all. }
  rewrite (Hstep _ start_date (λ start_date r, start_date ≤ date r)).
  rewrite (Hstep _ end_date (λ end_date r, date r ≤ end_date)).
  rewrite (Hstep _ (FinalScript.truthy store) (λ store r, store_id r = store)).
  rewrite (Hstep _ (FinalScript.truthy channel_) (λ channel_ r, channel r = channel_)).
  rewrite !list_filter_filter.
  apply list_filter_iff. intros r. unfold FinalScript.selected. tauto.
Qed.

(** X26. [filter_data] of the final project's script returns, in table
    order, exactly the rows that meet every criterion given, a
    criterion that is [None] or, for the store and the channel, the
    empty string, asking for nothing.  So without criteria the table
    comes back whole, an empty string filters like [None], and
    filtering the result again with the same criteria changes
    nothing. *)
Theorem script_filter_data_selects (df : list Row) (start_date end_date : option Z)
    (store channel_ : option string) :
  FinalScript.filter_data df start_date end_date store channel_
  = filter (FinalScript.selected start_date end_date store channel_) df
  ∧ FinalScript.filter_data df None None None None = df
  ∧ FinalScript.filter_data df start_date end_date (Some "") (Some "")
    = FinalScript.filter_data df start_date end_date None None
  ∧ FinalScript.filter_data
      (FinalScript.filter_data df start_date end_date store channel_)
      start_date end_date store channel_
    = FinalScript.filter_data df start_date end_date store channel_.
Proof.
  split; [apply script_filter_data_filter|]. split; [done|]. split; [done|].
  rewrite !script_filter_data_filter, list_filter_filter.
  apply list_filter_iff. tauto.
Qed.

(** X27. The script's [filter_data] and the dashboard's agree on dates
    and channel: with both dates given, no store, and the channel the
    dashboard's choice stands for ([None] for the sentinel ["All"]),
    the script selects from the CSV rows the rows the dashboard selects
    from the loaded table.  The choice must not be the empty string,
    which the script takes for no criterion and the dashboard for a
    channel. *)
Theorem script_and_dashboard_filters_agree (fdf : list FinalApp.SalesRow)
    (start_date end_date : Z) (selected_channel : string) :
  selected_channel ≠ "" →
  FinalScript.filter_data (map FinalApp.base fdf) (Some start_date) (Some end_date) None
    (if (selected_channel =? "All")%string then None else Some selected_channel)
  = map FinalApp.base
        (FinalApp.filter_data fdf (start_date, end_date) [] selected_channel None).
Proof.
  intros Hne.
  rewrite script_filter_data_filter, filter_data_filter.
  rewrite <- (map_filter_base FinalApp.base).
  f_equal. apply list_filter_iff. intros r.
  unfold FinalScript.selected, passes, channel_set, allowed. simpl.
  destruct (String.eqb_spec selected_channel "All") as [->|Hall]; simpl.
  - naive_solver.
  - destruct selected_channel as [|a rest]; [done|]. simpl.
    rewrite list_elem_of_singleton. naive_solver.
Qed.

Lemma script_and_dashboard_filters_agree_witness :
  FinalScript.filter_data (map FinalApp.base (FinalApp.load_data example_csv))
    (Some 738886) (Some 738887) None (Some "Online")
  = map FinalApp.base
        (FinalApp.filter_data (FinalApp.load_data example_csv) (738886, 738887) []
                              "Online" None).
Proof.
  by apply (script_and_dashboard_filters_agree (FinalApp.load_data example_csv)
              738886 738887 "Online").
Defined.

(** The sentinel is the dashboard's alone: given ["All"] as a channel
    the script looks for rows of that channel. *)
Lemma script_has_no_sentinel :
  FinalScript.filter_data example_csv None None None (Some "All") = [].
Proof. by vm_compute. Qed.


(** ** Recommendations of the Profitability page *)












(** ** The share of the top customers *)




